(** * llama-api: the model lifecycle and its orchestration service

    A shallow embedding of the TypeScript sources

    - [domain/value-objects/model-status.ts], [domain/entities/model.ts]
    - [domain/value-objects/model-info.ts], [generation-request.ts]
    - [domain/services/model-loader.ts], [model-downloader.ts],
      [domain/repositories/model-repository.ts]
    - [infrastructure/registries/model-registry.ts]
    - [infrastructure/repositories/file-model-repository.ts]
    - [infrastructure/services/huggingface-downloader.ts],
      [transformers-loader.ts]
    - [application/services/model-service.ts]

    Conventions of the embedding.  A JavaScript [number] that carries a
    percentage, a size or a sampling parameter is an exact rational ([Q]);
    counters and milliseconds are integers.  A [Date] is its millisecond
    value.  An [async] method is a state transformer returning an [outcome]:
    a resolved promise is [Return], a rejected one (or a [throw]) is [Throw].
    Console and logger output is not part of the model. *)

From Stdlib Require Import Ascii String List ZArith QArith Lqa Lia Bool.
From Stdlib Require Import Sorted Permutation.
From stdpp Require Import base option list gmap strings.

Local Open Scope string_scope.

(** ** JavaScript values *)

Definition Date := Z.

(** What a [catch (error)] clause can receive: an [Error] object with its
    message, or any other thrown value. *)
Inductive thrown : Type :=
  | ThrowError (message : string)
  | ThrowOther.

Inductive outcome (A : Type) : Type :=
  | Return (a : A)
  | Throw (t : thrown).
Arguments Return {A} a.
Arguments Throw {A} t.

(** [error instanceof Error ? error.message : dflt] *)
Definition message_or (dflt : string) (t : thrown) : string :=
  match t with
  | ThrowError m => m
  | ThrowOther => dflt
  end.

(** Truthiness of a [string | undefined]: [undefined] and the empty string
    are falsy. *)
Definition truthy (v : option string) : bool :=
  match v with
  | Some (String _ _) => true
  | _ => false
  end.

(** Truthiness of an object reference or [undefined]: every object, and in
    particular every array (the empty one included), is truthy. *)
Definition defined {A : Type} (v : option A) : bool :=
  match v with
  | Some _ => true
  | None => false
  end.

(** [String.prototype.toLowerCase] and [String.prototype.includes], on
    strings of ASCII characters: the letters A to Z go to a to z and every
    other character stays. *)
Module JsString.

Definition lowerChar (c : ascii) : ascii :=
  let n := nat_of_ascii c in
  if ((65 <=? n) && (n <=? 90))%nat then ascii_of_nat (n + 32) else c.

Fixpoint toLowerCase (s : string) : string :=
  match s with
  | EmptyString => EmptyString
  | String c rest => String (lowerChar c) (toLowerCase rest)
  end.

(** [s.includes(sub)]: [sub] starts at some position of [s]. *)
Fixpoint includes (sub s : string) : bool :=
  String.prefix sub s
  || match s with
     | EmptyString => false
     | String _ rest => includes sub rest
     end.

End JsString.

(** A [number] that can be [NaN]. *)
Inductive number : Type :=
  | Finite (q : Q)
  | NaN.

(** ** model-status.ts *)

Inductive ModelStatus : Type :=
  | NOT_DOWNLOADED
  | DOWNLOADING
  | DOWNLOADED
  | LOADING
  | LOADED
  | ERROR.

Definition ModelStatus_value (s : ModelStatus) : string :=
  match s with
  | NOT_DOWNLOADED => "not_downloaded"
  | DOWNLOADING => "downloading"
  | DOWNLOADED => "downloaded"
  | LOADING => "loading"
  | LOADED => "loaded"
  | ERROR => "error"
  end.

Definition ModelStatus_eqb (a b : ModelStatus) : bool :=
  match a, b with
  | NOT_DOWNLOADED, NOT_DOWNLOADED | DOWNLOADING, DOWNLOADING
  | DOWNLOADED, DOWNLOADED | LOADING, LOADING
  | LOADED, LOADED | ERROR, ERROR => true
  | _, _ => false
  end.

#[global] Instance ModelStatus_eq_dec : EqDecision ModelStatus.
Proof. solve_decision. Defined.

(** ** model-info.ts *)

Inductive ModelType : Type :=
  | TextGeneration
  | Text2TextGeneration
  | FeatureExtraction.

(** [ModelInfo].  [description] is declared [string], but [build] does not
    check it and returns the partial object as it is, so at run time the
    field can be [undefined]; it is an option here.  [sizeGB] is optional in
    the source. *)
Record ModelInfo : Type := {
  name : string;
  huggingFaceId : string;
  version : string;
  description : option string;
  localPath : string;
  modelType : ModelType;
  sizeGB : option Q;
  requiredFiles : list string
}.

(** [ModelInfoBuilder]: its one field [info : Partial<ModelInfo>]. *)
Record ModelInfoBuilder : Type := {
  p_name : option string;
  p_huggingFaceId : option string;
  p_version : option string;
  p_description : option string;
  p_localPath : option string;
  p_modelType : option ModelType;
  p_sizeGB : option Q;
  p_requiredFiles : option (list string)
}.

Definition newModelInfoBuilder : ModelInfoBuilder :=
  {| p_name := None; p_huggingFaceId := None; p_version := None;
     p_description := None; p_localPath := None; p_modelType := None;
     p_sizeGB := None; p_requiredFiles := None |}.

Definition setName (v : string) (b : ModelInfoBuilder) : ModelInfoBuilder :=
  {| p_name := Some v; p_huggingFaceId := p_huggingFaceId b;
     p_version := p_version b; p_description := p_description b;
     p_localPath := p_localPath b; p_modelType := p_modelType b;
     p_sizeGB := p_sizeGB b; p_requiredFiles := p_requiredFiles b |}.

Definition setHuggingFaceId (v : string) (b : ModelInfoBuilder) : ModelInfoBuilder :=
  {| p_name := p_name b; p_huggingFaceId := Some v;
     p_version := p_version b; p_description := p_description b;
     p_localPath := p_localPath b; p_modelType := p_modelType b;
     p_sizeGB := p_sizeGB b; p_requiredFiles := p_requiredFiles b |}.

Definition setVersion (v : string) (b : ModelInfoBuilder) : ModelInfoBuilder :=
  {| p_name := p_name b; p_huggingFaceId := p_huggingFaceId b;
     p_version := Some v; p_description := p_description b;
     p_localPath := p_localPath b; p_modelType := p_modelType b;
     p_sizeGB := p_sizeGB b; p_requiredFiles := p_requiredFiles b |}.

(** The repository passes [modelData.info.description], which can be
    [undefined]; the argument is the run-time value. *)
Definition setDescription (v : option string) (b : ModelInfoBuilder) : ModelInfoBuilder :=
  {| p_name := p_name b; p_huggingFaceId := p_huggingFaceId b;
     p_version := p_version b; p_description := v;
     p_localPath := p_localPath b; p_modelType := p_modelType b;
     p_sizeGB := p_sizeGB b; p_requiredFiles := p_requiredFiles b |}.

Definition setLocalPath (v : string) (b : ModelInfoBuilder) : ModelInfoBuilder :=
  {| p_name := p_name b; p_huggingFaceId := p_huggingFaceId b;
     p_version := p_version b; p_description := p_description b;
     p_localPath := Some v; p_modelType := p_modelType b;
     p_sizeGB := p_sizeGB b; p_requiredFiles := p_requiredFiles b |}.

Definition setModelType (v : ModelType) (b : ModelInfoBuilder) : ModelInfoBuilder :=
  {| p_name := p_name b; p_huggingFaceId := p_huggingFaceId b;
     p_version := p_version b; p_description := p_description b;
     p_localPath := p_localPath b; p_modelType := Some v;
     p_sizeGB := p_sizeGB b; p_requiredFiles := p_requiredFiles b |}.

(** The repository passes [modelData.info.sizeGB], which is [undefined] when
    the descriptor has no size. *)
Definition setSizeGB (v : option Q) (b : ModelInfoBuilder) : ModelInfoBuilder :=
  {| p_name := p_name b; p_huggingFaceId := p_huggingFaceId b;
     p_version := p_version b; p_description := p_description b;
     p_localPath := p_localPath b; p_modelType := p_modelType b;
     p_sizeGB := v; p_requiredFiles := p_requiredFiles b |}.

Definition setRequiredFiles (v : list string) (b : ModelInfoBuilder) : ModelInfoBuilder :=
  {| p_name := p_name b; p_huggingFaceId := p_huggingFaceId b;
     p_version := p_version b; p_description := p_description b;
     p_localPath := p_localPath b; p_modelType := p_modelType b;
     p_sizeGB := p_sizeGB b; p_requiredFiles := Some v |}.

(** The condition of the [if] in [build]: a disjunction of negated
    truthiness tests, in source order. *)
Definition missingRequired (b : ModelInfoBuilder) : bool :=
  negb (truthy (p_name b))
  || negb (truthy (p_huggingFaceId b))
  || negb (truthy (p_version b))
  || negb (truthy (p_localPath b))
  || negb (defined (p_modelType b))
  || negb (defined (p_requiredFiles b)).

(** [this.info as ModelInfo]: the same object, read at the full type.  The
    defaults are never reached once [missingRequired] is false. *)
Definition asModelInfo (b : ModelInfoBuilder) : ModelInfo :=
  {| name := default "" (p_name b);
     huggingFaceId := default "" (p_huggingFaceId b);
     version := default "" (p_version b);
     description := p_description b;
     localPath := default "" (p_localPath b);
     modelType := default TextGeneration (p_modelType b);
     sizeGB := p_sizeGB b;
     requiredFiles := default [] (p_requiredFiles b) |}.

Definition build (b : ModelInfoBuilder) : outcome ModelInfo :=
  if missingRequired b
  then Throw (ThrowError "Missing required ModelInfo fields")
  else Return (asModelInfo b).

(** ** model.ts *)

Record Model : Type := {
  _info : ModelInfo;
  _status : ModelStatus;
  _errorMessage : option string;
  _loadedAt : option Date
}.

(** The constructor. *)
Definition newModel (i : ModelInfo) : Model :=
  {| _info := i; _status := NOT_DOWNLOADED;
     _errorMessage := None; _loadedAt := None |}.

Definition info (m : Model) : ModelInfo := _info m.
Definition status (m : Model) : ModelStatus := _status m.
Definition errorMessage (m : Model) : option string := _errorMessage m.
Definition isReady (m : Model) : bool := ModelStatus_eqb (_status m) LOADED.
Definition loadedAt (m : Model) : option Date := _loadedAt m.

Definition markDownloading (m : Model) : Model :=
  {| _info := _info m; _status := DOWNLOADING;
     _errorMessage := None; _loadedAt := _loadedAt m |}.

Definition markDownloaded (m : Model) : Model :=
  {| _info := _info m; _status := DOWNLOADED;
     _errorMessage := None; _loadedAt := _loadedAt m |}.

Definition markLoading (m : Model) : Model :=
  {| _info := _info m; _status := LOADING;
     _errorMessage := None; _loadedAt := _loadedAt m |}.

(** [now] is the value of [new Date()] at the call. *)
Definition markLoaded (now : Date) (m : Model) : Model :=
  {| _info := _info m; _status := LOADED;
     _errorMessage := None; _loadedAt := Some now |}.

Definition markError (error : string) (m : Model) : Model :=
  {| _info := _info m; _status := ERROR;
     _errorMessage := Some error; _loadedAt := _loadedAt m |}.

(** The object [toJSON] returns, which is also what one entry of the
    registry document holds once written and parsed again: [JSON.stringify]
    drops the fields whose value is [undefined], and reading an absent field
    gives [undefined] back. *)
Record ModelData : Type := {
  d_info : ModelInfo;
  d_status : ModelStatus;
  d_errorMessage : option string;
  d_loadedAt : option Date;
  d_isReady : bool
}.

Definition toJSON (m : Model) : ModelData :=
  {| d_info := _info m; d_status := _status m;
     d_errorMessage := _errorMessage m; d_loadedAt := _loadedAt m;
     d_isReady := isReady m |}.

(** ** generation-request.ts *)

Record GenerationRequest : Type := {
  prompt : string;
  maxTokens : option Q;
  temperature : option Q;
  topP : option Q;
  topK : option Q;
  repetitionPenalty : option Q;
  doSample : option bool
}.

Module GenerationResponse.
Record t : Type := {
  text : string;
  tokensUsed : nat;
  processingTimeMs : Z;
  model : string;
  timestamp : Date
}.
End GenerationResponse.

(** The three clock readings of one [generate] call: [Date.now()] on entry,
    [Date.now()] after the pipeline answered, and the [new Date()] of the
    response. *)
Record GenClock : Type := {
  startTime : Z;
  endTime : Z;
  responseDate : Date
}.

(** ** The collaborator interfaces

    [model-repository.ts], [model-downloader.ts] and [model-loader.ts].  Each
    implementation has a state of its own; a method maps the state before
    the call to the result and the state after it. *)

Class ModelRepository (R : Type) : Type := {
  getModel : string -> Date -> R -> outcome (option Model) * R;
  saveModel : Model -> R -> outcome unit * R
}.

(** [download] also yields the arguments of its calls to the progress
    callback, in call order. *)
Class ModelDownloader (D : Type) : Type := {
  download : ModelInfo -> D -> list Q * outcome bool * D
}.

Class ModelLoader (L : Type) : Type := {
  loadModel : Model -> L -> outcome bool * L;
  unloadModel : string -> L -> outcome bool * L;
  generate : GenerationRequest -> GenClock -> L ->
             outcome GenerationResponse.t * L;
  isModelLoaded : string -> L -> bool;
  getLoadedModels : L -> list string
}.

(** ** JavaScript [Map] with string keys

    A [Map] iterates in insertion order; [set] on a key already present
    replaces the value where it stands, a new key goes to the end. *)
Module JsMap.
Section Ops.
Context {V : Type}.

Fixpoint get (k : string) (m : list (string * V)) : option V :=
  match m with
  | [] => None
  | (k', v) :: rest => if String.eqb k k' then Some v else get k rest
  end.

Definition has (k : string) (m : list (string * V)) : bool :=
  defined (get k m).

Fixpoint set (k : string) (v : V) (m : list (string * V)) : list (string * V) :=
  match m with
  | [] => [(k, v)]
  | (k', v') :: rest =>
      if String.eqb k k' then (k, v) :: rest else (k', v') :: set k v rest
  end.

Fixpoint delete (k : string) (m : list (string * V)) : list (string * V) :=
  match m with
  | [] => []
  | (k', v') :: rest =>
      if String.eqb k k' then rest else (k', v') :: delete k rest
  end.

Definition keys (m : list (string * V)) : list string := map fst m.
End Ops.
End JsMap.

(** [path.join] of two segments.  Node also normalises the result (a leading
    "./" is dropped); only the fact that equal arguments give equal paths is
    used below. *)
Definition join (a b : string) : string := a ++ "/" ++ b.

(** ** model-registry.ts *)
Module ModelRegistry.

Record ModelRegistryEntry : Type := {
  info : ModelInfo;
  tags : list string;
  popularity : Z;
  verified : bool
}.

Record ModelConfig : Type := {
  c_name : string;
  c_huggingFaceId : string;
  c_description : string;
  c_sizeGB : Q;
  c_tags : list string;
  c_popularity : Z;
  c_verified : bool
}.

Definition modelConfigs : list ModelConfig :=
  [ {| c_name := "gpt2-small"; c_huggingFaceId := "gpt2";
       c_description := "GPT-2 Small - Fast and lightweight text generation model";
       c_sizeGB := 1 # 2;
       c_tags := ["text-generation"; "fast"; "lightweight"];
       c_popularity := 95; c_verified := true |};
    {| c_name := "gpt2-medium"; c_huggingFaceId := "gpt2-medium";
       c_description := "GPT-2 Medium - Balanced performance and quality";
       c_sizeGB := 3 # 2;
       c_tags := ["text-generation"; "balanced"];
       c_popularity := 85; c_verified := true |};
    {| c_name := "distilgpt2"; c_huggingFaceId := "distilgpt2";
       c_description := "DistilGPT-2 - Distilled version of GPT-2, faster inference";
       c_sizeGB := 3 # 10;
       c_tags := ["text-generation"; "distilled"; "fast"];
       c_popularity := 75; c_verified := true |};
    {| c_name := "dialogpt-medium"; c_huggingFaceId := "microsoft/DialoGPT-medium";
       c_description := "DialoGPT Medium - Conversational AI model";
       c_sizeGB := 6 # 5;
       c_tags := ["conversation"; "dialog"; "chat"];
       c_popularity := 70; c_verified := true |};
    {| c_name := "t5-small"; c_huggingFaceId := "t5-small";
       c_description := "T5 Small - Text-to-text transfer transformer";
       c_sizeGB := 1 # 5;
       c_tags := ["text2text-generation"; "summarization"; "translation"];
       c_popularity := 80; c_verified := true |};
    {| c_name := "flan-t5-small"; c_huggingFaceId := "google/flan-t5-small";
       c_description := "FLAN-T5 Small - Instruction-tuned T5 model";
       c_sizeGB := 3 # 10;
       c_tags := ["text2text-generation"; "instruction-following"; "flan"];
       c_popularity := 85; c_verified := true |};
    {| c_name := "llama-7b-chat"; c_huggingFaceId := "microsoft/DialoGPT-large";
       c_description := "Llama 7B Chat - Large language model optimized for conversation";
       c_sizeGB := 7 # 1;
       c_tags := ["text-generation"; "large"; "chat"; "llama"];
       c_popularity := 90; c_verified := true |} ].

(** [tags.includes(s)] *)
Definition includes (s : string) (l : list string) : bool :=
  existsb (String.eqb s) l.

Definition entryOf (modelsBasePath : string) (config : ModelConfig)
  : outcome ModelRegistryEntry :=
  match
    build
      (setRequiredFiles
         ["config.json"; "pytorch_model.bin"; "tokenizer.json"; "tokenizer_config.json"]
      (setSizeGB (Some (c_sizeGB config))
      (setModelType
         (if includes "text2text-generation" (c_tags config)
          then Text2TextGeneration else TextGeneration)
      (setLocalPath (join modelsBasePath (c_name config))
      (setDescription (Some (c_description config))
      (setVersion "1.0.0"
      (setHuggingFaceId (c_huggingFaceId config)
      (setName (c_name config) newModelInfoBuilder))))))))
  with
  | Throw t => Throw t
  | Return modelInfo =>
      Return {| info := modelInfo; tags := c_tags config;
                popularity := c_popularity config;
                verified := c_verified config |}
  end.

(** The loop of [initializeModels] over the remaining configs, [models]
    being the map filled so far. *)
Fixpoint fill (modelsBasePath : string) (configs : list ModelConfig)
    (models : list (string * ModelRegistryEntry))
  : outcome (list (string * ModelRegistryEntry)) :=
  match configs with
  | [] => Return models
  | config :: rest =>
      match entryOf modelsBasePath config with
      | Throw t => Throw t
      | Return e => fill modelsBasePath rest (JsMap.set (c_name config) e models)
      end
  end.

(** [MODELS_PATH] is the environment variable. *)
Definition initializeModels (MODELS_PATH : option string)
  : outcome (list (string * ModelRegistryEntry)) :=
  let modelsBasePath :=
    if truthy MODELS_PATH then default "" MODELS_PATH else "./models" in
  fill modelsBasePath modelConfigs [].

Definition getModel (modelName : string) (models : list (string * ModelRegistryEntry))
  : option ModelRegistryEntry :=
  JsMap.get modelName models.

Definition addCustomModel (entry : ModelRegistryEntry)
    (models : list (string * ModelRegistryEntry))
  : list (string * ModelRegistryEntry) :=
  JsMap.set (name (info entry)) entry models.


(** [Array.prototype.sort] with the comparator
    [(a, b) => b.popularity - a.popularity].  The sort is stable and the
    comparator a total preorder, which fixes the result; it is computed here
    by insertion, an entry going before the first one that is not more
    popular. *)
Fixpoint insertByPopularity (e : ModelRegistryEntry) (sorted : list ModelRegistryEntry)
  : list ModelRegistryEntry :=
  match sorted with
  | [] => [e]
  | x :: rest =>
      if (popularity x <=? popularity e)%Z then e :: x :: rest
      else x :: insertByPopularity e rest
  end.

Definition sortByPopularity (entries : list ModelRegistryEntry)
  : list ModelRegistryEntry :=
  fold_right insertByPopularity [] entries.

(** [Array.from(this.models.values()).sort(...)] *)
Definition getAllModels (models : list (string * ModelRegistryEntry))
  : list ModelRegistryEntry :=
  sortByPopularity (map snd models).

(** The callback of [filter] in [searchModels].  [||] stops at the first
    true operand; reading [toLowerCase] of a description that is
    [undefined] throws a [TypeError]. *)
Definition matchesQuery (lowerQuery : string) (entry : ModelRegistryEntry)
  : outcome bool :=
  if JsString.includes lowerQuery (JsString.toLowerCase (name (info entry)))
  then Return true
  else
    match description (info entry) with
    | None =>
        Throw (ThrowError
                 "Cannot read properties of undefined (reading 'toLowerCase')")
    | Some d =>
        if JsString.includes lowerQuery (JsString.toLowerCase d)
        then Return true
        else Return (existsb
                       (fun tag => JsString.includes lowerQuery (JsString.toLowerCase tag))
                       (tags entry))
    end.

(** [Array.prototype.filter] with a callback that can throw: the first throw
    ends the call. *)
Fixpoint filterEntries (keep : ModelRegistryEntry -> outcome bool)
    (entries : list ModelRegistryEntry) : outcome (list ModelRegistryEntry) :=
  match entries with
  | [] => Return []
  | entry :: rest =>
      match keep entry with
      | Throw t => Throw t
      | Return b =>
          match filterEntries keep rest with
          | Throw t => Throw t
          | Return kept => Return (if b then entry :: kept else kept)
          end
      end
  end.

Definition searchModels (query : string) (models : list (string * ModelRegistryEntry))
  : outcome (list ModelRegistryEntry) :=
  let lowerQuery := JsString.toLowerCase query in
  filterEntries (matchesQuery lowerQuery) (getAllModels models).

Definition getModelsByTag (tag : string) (models : list (string * ModelRegistryEntry))
  : list ModelRegistryEntry :=
  List.filter (fun entry => includes tag (tags entry)) (getAllModels models).

Definition getVerifiedModels (models : list (string * ModelRegistryEntry))
  : list ModelRegistryEntry :=
  List.filter (fun entry => verified entry) (getAllModels models).

End ModelRegistry.

(** ** file-model-repository.ts *)
Module FileModelRepository.

(** What the repository reads and writes: the registry document
    ([registryFile] is [None] when [readFile] or [JSON.parse] fails, for
    instance before the first write), the fault [fs.writeFile] raises if
    it raises one, and the map of the [ModelRegistry] singleton.  The
    document is the object [JSON.parse] returns, given by its own
    properties, keyed by model name. *)
Record state : Type := {
  registryFile : option (gmap string ModelData);
  writeFault : option thrown;
  knownModels : list (string * ModelRegistry.ModelRegistryEntry)
}.

Definition loadRegistry (st : state) : gmap string ModelData :=
  match registryFile st with
  | Some registry => registry
  | None => ∅
  end.

Definition saveRegistry (registry : gmap string ModelData) (st : state)
  : outcome unit * state :=
  match writeFault st with
  | Some t => (Throw t, st)
  | None =>
      (Return tt,
       {| registryFile := Some registry; writeFault := writeFault st;
          knownModels := knownModels st |})
  end.

(** The property names every object has from [Object.prototype].  For such
    a name [registry[name]] is not [undefined] even when the document has
    no entry of that name: it is a function, or the prototype itself. *)
Definition objectPrototype : list string :=
  ["constructor"; "__defineGetter__"; "__defineSetter__"; "hasOwnProperty";
   "__lookupGetter__"; "__lookupSetter__"; "isPrototypeOf";
   "propertyIsEnumerable"; "toString"; "valueOf"; "__proto__";
   "toLocaleString"].

Definition inherited (key : string) : bool :=
  existsb (String.eqb key) objectPrototype.

(** The [catch] of [saveModel] logs and rethrows.  [registry[name] = ...]
    adds or replaces the entry [name]; the one name "__proto__", whose
    assignment is taken by the accessor of [Object.prototype] and adds no
    entry, is outside this definition. *)
Definition saveModel (model : Model) (st : state) : outcome unit * state :=
  let registry := loadRegistry st in
  saveRegistry (<[name (info model) := toJSON model]> registry) st.

Definition getKnownModel (modelName : string) (st : state) : option Model :=
  match ModelRegistry.getModel modelName (knownModels st) with
  | None => None
  | Some registryEntry => Some (newModel (ModelRegistry.info registryEntry))
  end.

(** The [switch] on [modelData.status] that follows [new Model(modelInfo)].
    Its cases are "downloaded", "loaded" and "error"; any other status
    leaves the fresh record as the constructor made it. *)
Definition restoreStatus (now : Date) (modelData : ModelData) (model : Model) : Model :=
  match d_status modelData with
  | DOWNLOADED => markDownloaded model
  | LOADED => markLoaded now model
  | ERROR =>
      markError
        (if truthy (d_errorMessage modelData)
         then default "" (d_errorMessage modelData)
         else "Unknown error")
        model
  | _ => model
  end.

(** Every fault inside [getModel] is caught and answered with [null].
    When the document has no entry [modelName] and the name is one of
    [objectPrototype], [modelData] is the inherited member: it is truthy
    and has no [info], so reading [modelData.info.name] throws. *)
Definition getModel (modelName : string) (now : Date) (st : state)
  : outcome (option Model) * state :=
  let registry := loadRegistry st in
  match registry !! modelName with
  | None =>
      if inherited modelName then (Return None, st)
      else
        match getKnownModel modelName st with
        | Some knownModel =>
            match saveModel knownModel st with
            | (Return _, st') => (Return (Some knownModel), st')
            | (Throw _, st') => (Return None, st')
            end
        | None => (Return None, st)
        end
  | Some modelData =>
      match
        build
          (setRequiredFiles (requiredFiles (d_info modelData))
          (setSizeGB (sizeGB (d_info modelData))
          (setModelType (modelType (d_info modelData))
          (setLocalPath (localPath (d_info modelData))
          (setDescription (description (d_info modelData))
          (setVersion (version (d_info modelData))
          (setHuggingFaceId (huggingFaceId (d_info modelData))
          (setName (name (d_info modelData)) newModelInfoBuilder))))))))
      with
      | Throw _ => (Return None, st)
      | Return modelInfo =>
          (Return (Some (restoreStatus now modelData (newModel modelInfo))), st)
      end
  end.




End FileModelRepository.

#[global] Instance FileModelRepository_ModelRepository
  : ModelRepository FileModelRepository.state :=
  {| getModel := FileModelRepository.getModel;
     saveModel := FileModelRepository.saveModel |}.

(** ** huggingface-downloader.ts *)
Module HuggingFaceDownloader.

(** The local disk as the set of paths that exist, with the two outside
    calls: [fs.mkdir] (the fault it raises, if any) and [downloadFile] of
    [@huggingface/hub], given the repo, the path in it, the local path
    and the disk. *)
Record state : Type := {
  disk : gset string;
  mkdirFault : option thrown;
  downloadFile : string -> string -> string -> gset string ->
                 outcome unit * gset string
}.

(** [(completedFiles / totalFiles) * 100] *)
Definition progressOf (completedFiles totalFiles : nat) : Q :=
  (inject_Z (Z.of_nat completedFiles) / inject_Z (Z.of_nat totalFiles)) * 100.

(** The [for] loop over the files still to fetch.  A file whose download
    fails is skipped: the counter and the callback are left alone. *)
Fixpoint fetchAll (modelInfo : ModelInfo) (fetch : string -> string -> string ->
                     gset string -> outcome unit * gset string)
    (files : list string) (totalFiles completedFiles : nat) (d : gset string)
  : list Q * gset string :=
  match files with
  | [] => ([], d)
  | fileName :: rest =>
      let localFilePath := join (localPath modelInfo) fileName in
      match fetch (huggingFaceId modelInfo) fileName localFilePath d with
      | (Return _, d') =>
          let completedFiles := S completedFiles in
          let progress := progressOf completedFiles totalFiles in
          let '(later, d'') :=
            fetchAll modelInfo fetch rest totalFiles completedFiles d' in
          (progress :: later, d'')
      | (Throw _, d') =>
          fetchAll modelInfo fetch rest totalFiles completedFiles d'
      end
  end.

Definition essentialFiles : list string := ["config.json"].

Definition download (modelInfo : ModelInfo) (st : state)
  : list Q * outcome bool * state :=
  match mkdirFault st with
  | Some _ => ([], Return false, st)
  | None =>
      let totalFiles := length (requiredFiles modelInfo) in
      let '(calls, d) :=
        fetchAll modelInfo (downloadFile st) (requiredFiles modelInfo)
                 totalFiles 0 (disk st) in
      let hasEssentialFiles :=
        map (fun file => bool_decide (join (localPath modelInfo) file ∈ d))
            essentialFiles in
      (calls, Return (existsb (fun exists_ => exists_) hasEssentialFiles),
       {| disk := d; mkdirFault := mkdirFault st;
          downloadFile := downloadFile st |})
  end.


(** The array both probes build: for each required file, whether [fs.access]
    finds it. *)
Definition fileChecks (modelInfo : ModelInfo) (st : state) : list bool :=
  map (fun fileName => bool_decide (join (localPath modelInfo) fileName ∈ disk st))
      (requiredFiles modelInfo).

Definition isModelDownloaded (modelInfo : ModelInfo) (st : state) : bool :=
  forallb (fun exists_ => exists_) (fileChecks modelInfo st).

(** [(downloadedCount / requiredFiles.length) * 100]; with no required file
    this is [0 / 0], which is [NaN]. *)
Definition getDownloadProgress (modelInfo : ModelInfo) (st : state) : number :=
  let downloadedCount :=
    length (List.filter (fun exists_ => exists_) (fileChecks modelInfo st)) in
  match requiredFiles modelInfo with
  | [] => NaN
  | _ :: _ => Finite (progressOf downloadedCount (length (requiredFiles modelInfo)))
  end.

End HuggingFaceDownloader.

#[global] Instance HuggingFaceDownloader_ModelDownloader
  : ModelDownloader HuggingFaceDownloader.state :=
  {| download := HuggingFaceDownloader.download |}.

(** ** transformers-loader.ts *)
Module TransformersLoader.

Record PipelineOptions : Type := {
  max_new_tokens : Q;
  o_temperature : Q;
  top_p : Q;
  do_sample : bool;
  repetition_penalty : Q
}.

(** One element of a pipeline answer: its [generated_text] and [text]
    fields when present, and what [String(_)] makes of it. *)
Record ResultItem : Type := {
  generated_text : option string;
  r_text : option string;
  asString : string
}.

Inductive PipelineResult : Type :=
  | ResArray (items : list ResultItem)
  | ResObject (item : ResultItem)
  | ResOther (asString : string).

(** A loaded pipeline is the function one calls with a prompt. *)
Record Pipeline : Type := {
  run : string -> PipelineOptions -> outcome PipelineResult
}.

(** [loadedModels] and the factory [pipeline] of [@xenova/transformers],
    called with the task, the model id and the cache directory. *)
Record state : Type := {
  loadedModels : list (string * Pipeline);
  pipeline : ModelType -> string -> string -> outcome Pipeline
}.

Definition loadModel (model : Model) (st : state) : outcome bool * state :=
  match pipeline st (modelType (info model)) (huggingFaceId (info model))
                 (localPath (info model)) with
  | Return pipe =>
      (Return true,
       {| loadedModels := JsMap.set (name (info model)) pipe (loadedModels st);
          pipeline := pipeline st |})
  | Throw _ => (Return false, st)
  end.

Definition unloadModel (modelName : string) (st : state) : outcome bool * state :=
  (Return true,
   if JsMap.has modelName (loadedModels st)
   then {| loadedModels := JsMap.delete modelName (loadedModels st);
           pipeline := pipeline st |}
   else st).

(** [x || d] on an optional number: [undefined] and [0] give [d]. *)
Definition orNumber (x : option Q) (d : Q) : Q :=
  match x with
  | Some v => if Qeq_bool v 0 then d else v
  | None => d
  end.

(** [item.generated_text || item.text || String(item)] *)
Definition textOf (item : ResultItem) : string :=
  if truthy (generated_text item) then default "" (generated_text item)
  else if truthy (r_text item) then default "" (r_text item)
  else asString item.

Definition generatedTextOf (result : PipelineResult) : string :=
  match result with
  | ResArray [] => "undefined"
  | ResArray (first :: _) => textOf first
  | ResObject item => textOf item
  | ResOther s => s
  end.

(** [s.split(" ").length]: one more than the number of spaces. *)
Fixpoint splitCount (s : string) : nat :=
  match s with
  | EmptyString => 1
  | String c rest =>
      if Ascii.eqb c " "%char then S (splitCount rest) else splitCount rest
  end.

(** The second argument of the pipeline call; [doSample !== false]. *)
Definition optionsOf (request : GenerationRequest) : PipelineOptions :=
  {| max_new_tokens := orNumber (maxTokens request) 100;
     o_temperature := orNumber (temperature request) (7 # 10);
     top_p := orNumber (topP request) (9 # 10);
     do_sample := match doSample request with
                  | Some false => false
                  | _ => true
                  end;
     repetition_penalty := orNumber (repetitionPenalty request) (11 # 10) |}.

Definition generate (request : GenerationRequest) (clock : GenClock) (st : state)
  : outcome GenerationResponse.t * state :=
  match loadedModels st with
  | [] => (Throw (ThrowError "No model loaded"), st)
  | (modelName, pipe) :: _ =>
      match run pipe (prompt request) (optionsOf request) with
      | Return result =>
          let generatedText := generatedTextOf result in
          (Return
             {| GenerationResponse.text := generatedText;
                GenerationResponse.tokensUsed := splitCount generatedText;
                GenerationResponse.processingTimeMs := endTime clock - startTime clock;
                GenerationResponse.model := modelName;
                GenerationResponse.timestamp := responseDate clock |},
           st)
      | Throw t =>
          (Throw (ThrowError ("Generation failed: " ++ message_or "Unknown error" t)),
           st)
      end
  end.

Definition isModelLoaded (modelName : string) (st : state) : bool :=
  JsMap.has modelName (loadedModels st).

Definition getLoadedModels (st : state) : list string :=
  JsMap.keys (loadedModels st).

End TransformersLoader.

#[global] Instance TransformersLoader_ModelLoader
  : ModelLoader TransformersLoader.state :=
  {| loadModel := TransformersLoader.loadModel;
     unloadModel := TransformersLoader.unloadModel;
     generate := TransformersLoader.generate;
     isModelLoaded := TransformersLoader.isModelLoaded;
     getLoadedModels := TransformersLoader.getLoadedModels |}.

(** ** logger.ts: the level filter of [Logger] *)
Module Logger.

Inductive LogLevel : Type :=
  | ERROR
  | WARN
  | INFO
  | DEBUG.

Definition LogLevel_value (l : LogLevel) : Z :=
  match l with
  | ERROR => 0
  | WARN => 1
  | INFO => 2
  | DEBUG => 3
  end.

Definition parseLogLevel (level : string) : LogLevel :=
  let lower := JsString.toLowerCase level in
  if String.eqb lower "error" then ERROR
  else if String.eqb lower "warn" then WARN
  else if String.eqb lower "info" then INFO
  else if String.eqb lower "debug" then DEBUG
  else INFO.

(** The constructor: [parseLogLevel(process.env.LOG_LEVEL || "info")]. *)
Definition newLogger (LOG_LEVEL : option string) : LogLevel :=
  parseLogLevel (if truthy LOG_LEVEL then default "" LOG_LEVEL else "info").

(** [level <= this.logLevel] *)
Definition shouldLog (level logLevel : LogLevel) : bool :=
  (LogLevel_value level <=? LogLevel_value logLevel)%Z.

End Logger.

(** ** health-monitor.ts *)
Module HealthMonitor.

Inductive Health : Type :=
  | healthy
  | degraded
  | unhealthy.

(** The two fields of [process.memoryUsage()] that are read; [heapTotal] is
    positive. *)
Record MemoryUsage : Type := {
  heapUsed : Q;
  heapTotal : Q
}.

(** [lastError] is the field of the monitor. *)
Definition determineOverallStatus (lastError : option string)
    (memoryUsage : MemoryUsage) (loadedModels : nat) : Health :=
  let memoryPercentage := ((heapUsed memoryUsage / heapTotal memoryUsage) * 100)%Q in
  if truthy lastError then unhealthy
  else if negb (Qle_bool memoryPercentage 90) then degraded
  else if (loadedModels =? 0)%nat then degraded
  else healthy.

Definition recordError (error : string) (lastError : option string) : option string :=
  Some error.

Definition clearError (lastError : option string) : option string := None.

End HealthMonitor.

(** ** model-service.ts *)

Module SetupModelResult.
Record t : Type := {
  success : bool;
  model : option string;
  status : option ModelStatus;
  error : option string
}.
End SetupModelResult.

Module GenerationResult.
Record t : Type := {
  success : bool;
  response : option GenerationResponse.t;
  error : option string
}.
End GenerationResult.

(** The object [getModelStatus] resolves to. *)
Module StatusReport.
Record t : Type := {
  model : option string;
  status : option ModelStatus;
  ready : bool
}.
End StatusReport.

(** What the service does to the outside, in the order it does it: the calls
    of the caller's progress callback and the calls of the three
    collaborators. *)
Inductive Event : Type :=
  | Progress (progress : Q) (stage : string)
  | RepositoryGetModel (modelName : string)
  | RepositorySaveModel (model : Model)
  | DownloaderDownload (modelInfo : ModelInfo)
  | LoaderIsModelLoaded (modelName : string)
  | LoaderLoadModel (model : Model)
  | LoaderUnloadModel (modelName : string)
  | LoaderGenerate (request : GenerationRequest).

(** The percentages handed to the progress callback, oldest first. *)
Fixpoint percentages (events : list Event) : list Q :=
  match events with
  | [] => []
  | Progress p _ :: rest => p :: percentages rest
  | _ :: rest => percentages rest
  end.

Definition isAcquirerCall (e : Event) : bool :=
  match e with
  | DownloaderDownload _ => true
  | _ => false
  end.

Definition isActivatorCall (e : Event) : bool :=
  match e with
  | LoaderIsModelLoaded _ | LoaderLoadModel _
  | LoaderUnloadModel _ | LoaderGenerate _ => true
  | _ => false
  end.

Definition isLoadCall (e : Event) : bool :=
  match e with
  | LoaderLoadModel _ => true
  | _ => false
  end.

Definition isUnloadCall (e : Event) : bool :=
  match e with
  | LoaderUnloadModel _ => true
  | _ => false
  end.

Section ModelService.
Context {R D L : Type}.
Context `{!ModelRepository R, !ModelDownloader D, !ModelLoader L}.

(** The fields of the class, the collaborators being held by their state,
    and the events so far. *)
Record ModelService : Type := {
  repository : R;
  downloader : D;
  loader : L;
  currentModel : option Model;
  trace : list Event
}.

(** Code running inside a method: it may change the object and may
    throw; a throw keeps the changes made before it. *)
Definition M (A : Type) : Type := ModelService -> outcome A * ModelService.

Definition ret {A : Type} (a : A) : M A := fun s => (Return a, s).

Definition bind {A B : Type} (c : M A) (k : A -> M B) : M B :=
  fun s =>
    match c s with
    | (Return a, s') => k a s'
    | (Throw t, s') => (Throw t, s')
    end.

(** [try { c } catch (error) { h error }] *)
Definition try_catch {A : Type} (c : M A) (h : thrown -> M A) : M A :=
  fun s =>
    match c s with
    | (Return a, s') => (Return a, s')
    | (Throw t, s') => h t s'
    end.

Definition emit (e : Event) : M unit :=
  fun s =>
    (Return tt,
     {| repository := repository s; downloader := downloader s;
        loader := loader s; currentModel := currentModel s;
        trace := trace s ++ [e] |}).

(** [this.currentModel = model] *)
Definition setCurrentModel (model : option Model) : M unit :=
  fun s =>
    (Return tt,
     {| repository := repository s; downloader := downloader s;
        loader := loader s; currentModel := model; trace := trace s |}).

Definition onRepository {A : Type} (e : Event) (op : R -> outcome A * R) : M A :=
  fun s =>
    let '(r, repository') := op (repository s) in
    (r,
     {| repository := repository'; downloader := downloader s;
        loader := loader s; currentModel := currentModel s;
        trace := trace s ++ [e] |}).

Definition onLoader {A : Type} (e : Event) (op : L -> outcome A * L) : M A :=
  fun s =>
    let '(r, loader') := op (loader s) in
    (r,
     {| repository := repository s; downloader := downloader s;
        loader := loader'; currentModel := currentModel s;
        trace := trace s ++ [e] |}).

(** [onProgress?.(progress, stage)]; [onProgress] tells whether the caller
    passed a callback. *)
Definition report (onProgress : bool) (progress : Q) (stage : string) : M unit :=
  if onProgress then emit (Progress progress stage) else ret tt.

(** [this.downloader.download(model.info, (progress) =>
    onProgress?.(10 + progress * 0.6, "Downloading model..."))] *)
Definition rescale (progress : Q) : Q := 10 + progress * (6 # 10).

Definition callDownload (modelInfo : ModelInfo) (onProgress : bool) : M bool :=
  fun s =>
    let '(calls, r, downloader') := download modelInfo (downloader s) in
    (r,
     {| repository := repository s; downloader := downloader';
        loader := loader s; currentModel := currentModel s;
        trace := trace s ++ DownloaderDownload modelInfo
                   :: (if onProgress
                       then map (fun p => Progress (rescale p) "Downloading model...") calls
                       else []) |}).

Local Notation "x <- c ;; k" := (bind c (fun x => k))
  (at level 100, c at next level, right associativity).
Local Notation "c ;;; k" := (bind c (fun _ => k))
  (at level 100, right associativity).

Definition failed (error : string) : SetupModelResult.t :=
  {| SetupModelResult.success := false; SetupModelResult.model := None;
     SetupModelResult.status := None; SetupModelResult.error := Some error |}.

Definition succeeded (modelName : string) (model : Model) : SetupModelResult.t :=
  {| SetupModelResult.success := true; SetupModelResult.model := Some modelName;
     SetupModelResult.status := Some (status model);
     SetupModelResult.error := None |}.

(** The block under "Download if needed".  [inl] is a [return] out of
    [setupModel]; [inr] is the record as the block leaves it. *)
Definition downloadIfNeeded (model : Model) (onProgress : bool)
  : M (SetupModelResult.t + Model) :=
  if ModelStatus_eqb (status model) NOT_DOWNLOADED then
    report onProgress 10 "Downloading model..." ;;;
    let model := markDownloading model in
    onRepository (RepositorySaveModel model) (saveModel model) ;;;
    downloadSuccess <- callDownload (info model) onProgress ;;
    if negb downloadSuccess then
      let model := markError "Download failed" model in
      onRepository (RepositorySaveModel model) (saveModel model) ;;;
      ret (inl (failed "Download failed"))
    else
      let model := markDownloaded model in
      onRepository (RepositorySaveModel model) (saveModel model) ;;;
      ret (inr model)
  else ret (inr model).

(** The block under "Load model"; [now] is the [new Date()] of
    [markLoaded]. *)
Definition loadIfDownloaded (model : Model) (onProgress : bool) (now : Date)
  : M (SetupModelResult.t + Model) :=
  if ModelStatus_eqb (status model) DOWNLOADED then
    report onProgress 70 "Loading model into memory..." ;;;
    let model := markLoading model in
    onRepository (RepositorySaveModel model) (saveModel model) ;;;
    loadSuccess <- onLoader (LoaderLoadModel model) (loadModel model) ;;
    if negb loadSuccess then
      let model := markError "Loading failed" model in
      onRepository (RepositorySaveModel model) (saveModel model) ;;;
      ret (inl (failed "Loading failed"))
    else
      let model := markLoaded now model in
      setCurrentModel (Some model) ;;;
      onRepository (RepositorySaveModel model) (saveModel model) ;;;
      ret (inr model)
  else ret (inr model).

(** [setupModel(modelName, onProgress)].  One call reads the clock at most
    once (a record restored as loaded is never loaded again), so [now]
    stands for [new Date()] wherever the call evaluates it. *)
Definition setupModel (modelName : string) (onProgress : bool) (now : Date)
  : M SetupModelResult.t :=
  try_catch
    (report onProgress 0 "Initializing..." ;;;
     found <- onRepository (RepositoryGetModel modelName) (getModel modelName now) ;;
     match found with
     | None => ret (failed ("Model " ++ modelName ++ " not found in registry"))
     | Some model =>
         alreadyLoaded <-
           (if isReady model
            then onLoader (LoaderIsModelLoaded modelName)
                          (fun l => (Return (isModelLoaded modelName l), l))
            else ret false) ;;
         if alreadyLoaded then
           setCurrentModel (Some model) ;;;
           ret (succeeded modelName model)
         else
           downloaded <- downloadIfNeeded model onProgress ;;
           match downloaded with
           | inl result => ret result
           | inr model =>
               loaded <- loadIfDownloaded model onProgress now ;;
               match loaded with
               | inl result => ret result
               | inr model =>
                   report onProgress 100 "Model ready!" ;;;
                   ret (succeeded modelName model)
               end
           end
     end)
    (fun error => ret (failed (message_or "Unknown error" error))).

Definition generateText (request : GenerationRequest) (clock : GenClock)
  : M GenerationResult.t :=
  fun s =>
    if negb (defined (currentModel s))
       || negb (from_option isReady false (currentModel s))
    then
      (Return {| GenerationResult.success := false;
                 GenerationResult.response := None;
                 GenerationResult.error := Some "No model loaded" |}, s)
    else
      try_catch
        (response <- onLoader (LoaderGenerate request) (generate request clock) ;;
         ret {| GenerationResult.success := true;
                GenerationResult.response := Some response;
                GenerationResult.error := None |})
        (fun error =>
           ret {| GenerationResult.success := false;
                  GenerationResult.response := None;
                  GenerationResult.error :=
                    Some (message_or "Generation failed" error) |})
        s.

Definition getModelStatus (s : ModelService) : StatusReport.t :=
  match currentModel s with
  | None =>
      {| StatusReport.model := None; StatusReport.status := None;
         StatusReport.ready := false |}
  | Some current =>
      {| StatusReport.model := Some (name (info current));
         StatusReport.status := Some (status current);
         StatusReport.ready := isReady current |}
  end.

Definition unloadCurrentModel : M bool :=
  fun s =>
    match currentModel s with
    | None => (Return true, s)
    | Some current =>
        (success <- onLoader (LoaderUnloadModel (name (info current)))
                             (unloadModel (name (info current))) ;;
         if success
         then setCurrentModel None ;;; ret success
         else ret success) s
    end.

End ModelService.

Arguments ModelService R D L : clear implicits.

(** ** api-server.ts: the route handlers that call the service *)
Module APIServer.

(** What a handler leaves to Fastify: the status code (200 unless
    [reply.code] set another) and the object returned, [{ error }] or
    [{ data }]. *)
Inductive Payload (A : Type) : Type :=
  | ErrorBody (error : option string)
  | DataBody (data : A).
Arguments ErrorBody {A} error.
Arguments DataBody {A} data.

Record Reply (A : Type) : Type := {
  code : nat;
  body : Payload A
}.
Arguments code {A} r.
Arguments body {A} r.

Section Routes.
Context {R D L : Type}.
Context `{!ModelRepository R, !ModelDownloader D, !ModelLoader L}.

(** [POST /api/v1/models/setup]; [modelName] is the field of the request
    body.  The service is called without a progress callback. *)
Definition postSetup (modelName : option string) (now : Date)
    (s : ModelService R D L)
  : outcome (Reply SetupModelResult.t) * ModelService R D L :=
  if negb (truthy modelName)
  then (Return {| code := 400; body := ErrorBody (Some "modelName is required") |}, s)
  else
    match setupModel (default "" modelName) false now s with
    | (Throw t, s') => (Throw t, s')
    | (Return result, s') =>
        if negb (SetupModelResult.success result)
        then (Return {| code := 500;
                        body := ErrorBody (SetupModelResult.error result) |}, s')
        else (Return {| code := 200; body := DataBody result |}, s')
    end.

(** [POST /api/v1/generate]; the four arguments are the fields read from the
    request body. *)
Definition postGenerate (prompt_ : option string) (maxTokens_ temperature_ topP_ : option Q)
    (clock : GenClock) (s : ModelService R D L)
  : outcome (Reply (option GenerationResponse.t)) * ModelService R D L :=
  if negb (truthy prompt_)
  then (Return {| code := 400; body := ErrorBody (Some "prompt is required") |}, s)
  else
    match
      generateText
        {| prompt := default "" prompt_; maxTokens := maxTokens_;
           temperature := temperature_; topP := topP_; topK := None;
           repetitionPenalty := None; doSample := None |}
        clock s
    with
    | (Throw t, s') => (Throw t, s')
    | (Return result, s') =>
        if negb (GenerationResult.success result)
        then (Return {| code := 500;
                        body := ErrorBody (GenerationResult.error result) |}, s')
        else (Return {| code := 200;
                        body := DataBody (GenerationResult.response result) |}, s')
    end.

End Routes.

(** [GET /api/v1/registry/search] with the query parameters [q] and [tag]. *)
Definition registrySearch (q tag : option string)
    (models : list (string * ModelRegistry.ModelRegistryEntry))
  : outcome (list ModelRegistry.ModelRegistryEntry) :=
  if truthy q then ModelRegistry.searchModels (default "" q) models
  else if truthy tag then Return (ModelRegistry.getModelsByTag (default "" tag) models)
  else Return (ModelRegistry.getVerifiedModels models).

End APIServer.

(** ** A concrete deployment

    The wiring of [container.ts] (file repository, Hugging Face downloader,
    Transformers loader) in an environment where the catalog is the built-in
    one, the registry document does not exist yet, every file downloads and
    every pipeline loads and echoes its prompt. *)
Module Deployment.

Definition catalog : list (string * ModelRegistry.ModelRegistryEntry) :=
  match ModelRegistry.initializeModels None with
  | Return models => models
  | Throw _ => []
  end.

Definition emptyStore : FileModelRepository.state :=
  {| FileModelRepository.registryFile := None;
     FileModelRepository.writeFault := None;
     FileModelRepository.knownModels := catalog |}.

Definition mirror : HuggingFaceDownloader.state :=
  {| HuggingFaceDownloader.disk := ∅;
     HuggingFaceDownloader.mkdirFault := None;
     HuggingFaceDownloader.downloadFile :=
       fun _ _ localFilePath d => (Return tt, {[localFilePath]} ∪ d) |}.

Definition echo (modelId : string) : TransformersLoader.Pipeline :=
  {| TransformersLoader.run :=
       fun prompt _ =>
         Return (TransformersLoader.ResArray
                   [ {| TransformersLoader.generated_text :=
                          Some (prompt ++ " [" ++ modelId ++ "]");
                        TransformersLoader.r_text := None;
                        TransformersLoader.asString := "[object Object]" |} ]) |}.

Definition idle : TransformersLoader.state :=
  {| TransformersLoader.loadedModels := [];
     TransformersLoader.pipeline := fun _ modelId _ => Return (echo modelId) |}.

Definition Service : Type :=
  ModelService FileModelRepository.state HuggingFaceDownloader.state
               TransformersLoader.state.

Definition fresh : Service :=
  {| repository := emptyStore; downloader := mirror; loader := idle;
     currentModel := None; trace := [] |}.

(** The service after the call, whatever the call answered. *)
Definition after {A : Type} (c : Service -> outcome A * Service) (s : Service)
  : Service := snd (c s).

Definition answer {A : Type} (c : Service -> outcome A * Service) (s : Service)
  : outcome A := fst (c s).

(** The catalog's descriptor of "gpt2-small". *)
Definition gpt2small : ModelInfo :=
  {| name := "gpt2-small"; huggingFaceId := "gpt2"; version := "1.0.0";
     description := Some "GPT-2 Small - Fast and lightweight text generation model";
     localPath := "./models/gpt2-small"; modelType := TextGeneration;
     sizeGB := Some (1 # 2);
     requiredFiles := ["config.json"; "pytorch_model.bin"; "tokenizer.json";
                       "tokenizer_config.json"] |}.

(** The catalog's descriptor of "distilgpt2". *)
Definition distilgpt2 : ModelInfo :=
  {| name := "distilgpt2"; huggingFaceId := "distilgpt2"; version := "1.0.0";
     description := Some "DistilGPT-2 - Distilled version of GPT-2, faster inference";
     localPath := "./models/distilgpt2"; modelType := TextGeneration;
     sizeGB := Some (3 # 10);
     requiredFiles := ["config.json"; "pytorch_model.bin"; "tokenizer.json";
                       "tokenizer_config.json"] |}.

(** A network that serves "config.json" and "tokenizer.json" and nothing
    else. *)
Definition patchy : HuggingFaceDownloader.state :=
  {| HuggingFaceDownloader.disk := ∅;
     HuggingFaceDownloader.mkdirFault := None;
     HuggingFaceDownloader.downloadFile :=
       fun _ path localFilePath d =>
         if String.eqb path "config.json" || String.eqb path "tokenizer.json"
         then (Return tt, {[localFilePath]} ∪ d)
         else (Throw (ThrowError "Request failed with status code 404"), d) |}.

(** The same deployment with the network down: no file downloads. *)
Definition unreachable : HuggingFaceDownloader.state :=
  {| HuggingFaceDownloader.disk := ∅;
     HuggingFaceDownloader.mkdirFault := None;
     HuggingFaceDownloader.downloadFile :=
       fun _ _ _ d => (Throw (ThrowError "fetch failed"), d) |}.

Definition offline : Service :=
  {| repository := emptyStore; downloader := unreachable; loader := idle;
     currentModel := None; trace := [] |}.

(** A custom catalog entry whose name is spelt with capitals. *)
Definition shouting : ModelRegistry.ModelRegistryEntry :=
  {| ModelRegistry.info :=
       {| name := "GPT2-Small"; huggingFaceId := "gpt2"; version := "1.0.0";
          description := None; localPath := "./models/GPT2-Small";
          modelType := TextGeneration; sizeGB := None;
          requiredFiles := ["config.json"] |};
     ModelRegistry.tags := ["custom"];
     ModelRegistry.popularity := 10;
     ModelRegistry.verified := false |}.

(** The same deployment with a loader whose pipeline factory fails. *)
Definition jammed : TransformersLoader.state :=
  {| TransformersLoader.loadedModels := [];
     TransformersLoader.pipeline :=
       fun _ _ _ => Throw (ThrowError "Unsupported model type") |}.

Definition unloadable : Service :=
  {| repository := emptyStore; downloader := mirror; loader := jammed;
     currentModel := None; trace := [] |}.

(** A deployment whose document already holds "gpt2-small" as downloaded,
    with the loader that cannot load. *)
Definition downloadedOnly : Service :=
  {| repository :=
       {| FileModelRepository.registryFile :=
            Some {[ "gpt2-small" := toJSON (markDownloaded (newModel gpt2small)) ]};
          FileModelRepository.writeFault := None;
          FileModelRepository.knownModels := catalog |};
     downloader := mirror; loader := jammed;
     currentModel := None; trace := [] |}.

(** The events a call added to the trace. *)
Definition eventsOf {A : Type} (c : Service -> outcome A * Service) (s : Service)
  : list Event := drop (length (trace s)) (trace (after c s)).

(** After [setupModel("gpt2-small")], and after [setupModel("distilgpt2")]
    on top of it. *)
Definition loadedOnce : Service :=
  after (setupModel "gpt2-small" true 7%Z) fresh.

Definition loadedTwice : Service :=
  after (setupModel "distilgpt2" true 9%Z) loadedOnce.

(** After a [setupModel("gpt2-small")] whose download failed. *)
Definition failedOnce : Service :=
  after (setupModel "gpt2-small" true 7%Z) offline.

(** After a [setupModel("gpt2-small")] whose download succeeded and whose
    load failed. *)
Definition failedLoadOnce : Service :=
  after (setupModel "gpt2-small" true 7%Z) unloadable.

Definition hello : GenerationRequest :=
  {| prompt := "Hello"; maxTokens := None; temperature := None; topP := None;
     topK := None; repetitionPenalty := None; doSample := None |}.

Definition noon : GenClock :=
  {| startTime := 1000%Z; endTime := 1042%Z; responseDate := 1043%Z |}.

End Deployment.


(** ** Vocabulary of the statements *)

(** The records the program can hold: made by the constructor and changed by
    the transition methods only. *)
Inductive reachable : Model -> Prop :=
| reach_new (i : ModelInfo) : reachable (newModel i)
| reach_downloading (m : Model) : reachable m -> reachable (markDownloading m)
| reach_downloaded (m : Model) : reachable m -> reachable (markDownloaded m)
| reach_loading (m : Model) : reachable m -> reachable (markLoading m)
| reach_loaded (now : Date) (m : Model) : reachable m -> reachable (markLoaded now m)
| reach_error (e : string) (m : Model) : reachable m -> reachable (markError e m).

(** Consecutive elements never decrease. *)
Fixpoint nondecreasing (l : list Q) : Prop :=
  match l with
  | x :: (y :: _) as rest => (x <= y)%Q /\ nondecreasing rest
  | _ => True
  end.

Definition within (lo hi p : Q) : Prop := (lo <= p)%Q /\ (p <= hi)%Q.

(** A string field of the builder that was never set, or set to "". *)
Definition absentOrEmpty (v : option string) : Prop := v = None \/ v = Some "".

(** The four string fields [build] tests are non-empty. *)
Definition wellFormed (i : ModelInfo) : Prop :=
  name i <> "" /\ huggingFaceId i <> "" /\ version i <> "" /\ localPath i <> "".

(** The status [FileModelRepository.getModel] gives a record whose document
    entry carries status [s]. *)
Definition readBack (s : ModelStatus) : ModelStatus :=
  match s with
  | DOWNLOADING | LOADING => NOT_DOWNLOADED
  | _ => s
  end.

(** "At least as popular as", the order of [ModelRegistry.getAllModels]. *)
Definition noLessPopular (a b : ModelRegistry.ModelRegistryEntry) : Prop :=
  (ModelRegistry.popularity b <= ModelRegistry.popularity a)%Z.

(** What the caller of [download] may assume of a well-behaved Acquirer: the
    values it reports never decrease and lie in [0,100]. *)
Definition wellBehaved (calls : list Q) : Prop :=
  nondecreasing calls /\ Forall (within 0 100) calls.

(** The test of "Check if already loaded" in [setupModel], on the record the
    repository returns: the record is ready and the loader holds the
    model. *)
Definition alreadyLoaded {R D L : Type} `{!ModelRepository R, !ModelLoader L}
    (s : ModelService R D L) (modelName : string) (now : Date) : bool :=
  match getModel modelName now (repository s) with
  | (Return (Some model), _) => isReady model && isModelLoaded modelName (loader s)
  | _ => false
  end.

(** The calls of the collaborators among the events, the progress reports
    left out. *)
Definition isProgress (e : Event) : bool :=
  match e with
  | Progress _ _ => true
  | _ => false
  end.

Definition collaboratorCalls (events : list Event) : list Event :=
  List.filter (fun e => negb (isProgress e)) events.

(** The key of the first entry of a [Map], if it has one. *)
Definition firstKey {V : Type} (m : list (string * V)) : option string :=
  match m with
  | [] => None
  | (k, _) :: _ => Some k
  end.

(** * Properties *)

Local Open Scope list_scope.

(** ** The record and its descriptor *)

Section ModelFacts.

Lemma truthy_Some_nonempty (s : string) : truthy (Some s) = true <-> s <> "".
Proof. destruct s; simpl; split; intros; congruence. Qed.

Lemma truthy_false_iff (v : option string) :
  truthy v = false <-> v = None \/ v = Some "".
Proof.
  destruct v as [[|c s]|]; simpl; split; intros; auto; try discriminate.
  - destruct H as [H|H]; discriminate.
Qed.

Lemma defined_false_iff {A : Type} (v : option A) : defined v = false <-> v = None.
Proof. destruct v; simpl; split; intros; congruence. Qed.

End ModelFacts.

Section RecordClaims.

Lemma loadedAt_of_reachable m :
  reachable m -> status m = LOADED -> is_Some (loadedAt m).
Proof.
  induction 1; simpl; intros Hs; try discriminate Hs.
  eexists; reflexivity.
Qed.

(** C2, as the code has it: [markLoaded] has no guard.  From any state it
    sets the state to Loaded, stamps the activation time and clears the
    error message; the descriptor is untouched. *)
Theorem markLoaded_unconditional (now : Date) (m : Model) :
  status (markLoaded now m) = LOADED
  /\ loadedAt (markLoaded now m) = Some now
  /\ errorMessage (markLoaded now m) = None
  /\ info (markLoaded now m) = info m.
Proof. repeat split. Qed.

(** C2 fails as stated: [markLoaded] on a record that is NotDownloaded does
    yield a record whose state is Loaded. *)
Lemma markLoaded_from_NotDownloaded_not_rejected :
  status (newModel Deployment.gpt2small) = NOT_DOWNLOADED
  /\ ~ (status (markLoaded 7%Z (newModel Deployment.gpt2small)) <> LOADED).
Proof. split; [reflexivity | intros H; apply H; reflexivity]. Qed.

(** C8, as the code has it: [markLoaded] sets the activation timestamp and no
    other transition touches it, so every record in state Loaded has a
    timestamp, and a timestamp once set stays through later transitions. *)
Theorem loadedAt_set_on_Loaded_never_cleared (now : Date) (e : string) (m : Model) :
  loadedAt (markLoaded now m) = Some now
  /\ loadedAt (markDownloading m) = loadedAt m
  /\ loadedAt (markDownloaded m) = loadedAt m
  /\ loadedAt (markLoading m) = loadedAt m
  /\ loadedAt (markError e m) = loadedAt m
  /\ (reachable m -> status m = LOADED -> is_Some (loadedAt m)).
Proof.
  repeat split. apply loadedAt_of_reachable.
Qed.

(** A record loaded at time 7 carries its timestamp. *)
Lemma loadedAt_set_on_Loaded_never_cleared_witness :
  reachable (markLoaded 7%Z (newModel Deployment.gpt2small))
  /\ status (markLoaded 7%Z (newModel Deployment.gpt2small)) = LOADED
  /\ is_Some (loadedAt (markLoaded 7%Z (newModel Deployment.gpt2small))).
Proof.
  assert (Hr : reachable (markLoaded 7%Z (newModel Deployment.gpt2small)))
    by (apply reach_loaded, reach_new).
  split; [exact Hr | split; [reflexivity |]].
  apply (loadedAt_set_on_Loaded_never_cleared 7%Z ""
           (markLoaded 7%Z (newModel Deployment.gpt2small))).
  - exact Hr.
  - reflexivity.
Defined.

(** C8 fails as stated: a record that was Loaded and re-enters Downloading
    keeps its activation timestamp, so the timestamp is present in a state
    other than Loaded. *)
Lemma loadedAt_present_iff_Loaded_fails :
  ~ (is_Some (loadedAt (markDownloading (markLoaded 7%Z (newModel Deployment.gpt2small))))
     <-> status (markDownloading (markLoaded 7%Z (newModel Deployment.gpt2small))) = LOADED).
Proof.
  intros [H _]. discriminate H. eexists; reflexivity.
Qed.

Lemma missingRequired_true_iff (b : ModelInfoBuilder) :
  missingRequired b = true <->
  absentOrEmpty (p_name b) \/ absentOrEmpty (p_huggingFaceId b)
  \/ absentOrEmpty (p_version b) \/ absentOrEmpty (p_localPath b)
  \/ p_modelType b = None \/ p_requiredFiles b = None.
Proof.
  unfold missingRequired, absentOrEmpty.
  rewrite !orb_true_iff, !negb_true_iff, !truthy_false_iff, !defined_false_iff.
  tauto.
Qed.

(** C9, as the code has it: [build] throws its one error exactly when name,
    acquisition identifier, version or local path is unset or the empty
    string, or the generation kind or the required-file list is unset;
    otherwise it returns the descriptor.  An empty required-file list is
    accepted. *)
Theorem build_fails_iff_field_missing (b : ModelInfoBuilder) :
  (build b = Throw (ThrowError "Missing required ModelInfo fields") <->
   absentOrEmpty (p_name b) \/ absentOrEmpty (p_huggingFaceId b)
   \/ absentOrEmpty (p_version b) \/ absentOrEmpty (p_localPath b)
   \/ p_modelType b = None \/ p_requiredFiles b = None)
  /\ (build b = Throw (ThrowError "Missing required ModelInfo fields")
      \/ build b = Return (asModelInfo b)).
Proof.
  rewrite <- missingRequired_true_iff. unfold build.
  destruct (missingRequired b); split; auto; split; intros; congruence.
Qed.

(** A builder whose name is the empty string fails. *)
Lemma build_fails_iff_field_missing_witness :
  build (setRequiredFiles ["config.json"] (setName "" newModelInfoBuilder))
  = Throw (ThrowError "Missing required ModelInfo fields").
Proof.
  apply (proj1 (build_fails_iff_field_missing
                  (setRequiredFiles ["config.json"] (setName "" newModelInfoBuilder)))).
  left. right. reflexivity.
Defined.

(** C9 fails as stated: a builder with every field set and the empty list of
    required files builds a descriptor; no error is raised. *)
Lemma build_accepts_empty_requiredFiles :
  ~ (exists t,
        build (setRequiredFiles []
              (setModelType TextGeneration
              (setLocalPath "./models/gpt2-small"
              (setVersion "1.0.0"
              (setHuggingFaceId "gpt2"
              (setName "gpt2-small" newModelInfoBuilder))))))
        = Throw t).
Proof. intros [t H]. discriminate H. Qed.

End RecordClaims.

Section RecordStoreClaims.

Lemma truthy_default (s : string) : s <> "" -> truthy (Some s) = true.
Proof. apply truthy_Some_nonempty. Qed.

(** Rebuilding a well-formed descriptor field by field gives it back. *)
Lemma build_from_descriptor (i : ModelInfo) :
  wellFormed i ->
  build
    (setRequiredFiles (requiredFiles i)
    (setSizeGB (sizeGB i)
    (setModelType (modelType i)
    (setLocalPath (localPath i)
    (setDescription (description i)
    (setVersion (version i)
    (setHuggingFaceId (huggingFaceId i)
    (setName (name i) newModelInfoBuilder))))))))
  = Return i.
Proof.
  intros (Hn & Hh & Hv & Hl).
  destruct i as [n h v d l t z f]; simpl in *.
  destruct n, h, v, l; try congruence; reflexivity.
Qed.

Lemma restoreStatus_status now d i :
  status (FileModelRepository.restoreStatus now d (newModel i)) = readBack (d_status d).
Proof.
  unfold FileModelRepository.restoreStatus. destruct (d_status d); reflexivity.
Qed.

Lemma restoreStatus_info now d i :
  info (FileModelRepository.restoreStatus now d (newModel i)) = i.
Proof.
  unfold FileModelRepository.restoreStatus. destruct (d_status d); reflexivity.
Qed.

(** C3, as the code has it: when the descriptor is well-formed, the record
    is not called "__proto__" (a name the assignment [registry[name] = ...]
    cannot add to the document) and the document can be written,
    [saveModel] followed by [getModel] of the same name gives a record with
    the same descriptor; its state is the saved one for NotDownloaded,
    Downloaded, Loaded and Error, and NotDownloaded for a record saved while
    Downloading or Loading; a non-empty Error message is read back
    unchanged. *)
Theorem saveModel_getModel_readBack
    (st : FileModelRepository.state) (m : Model) (now : Date) :
  FileModelRepository.writeFault st = None ->
  wellFormed (info m) ->
  name (info m) <> "__proto__" ->
  exists st1 m',
    FileModelRepository.saveModel m st = (Return tt, st1)
    /\ FileModelRepository.getModel (name (info m)) now st1 = (Return (Some m'), st1)
    /\ info m' = info m
    /\ status m' = readBack (status m)
    /\ (forall e, status m = ERROR -> errorMessage m = Some e -> e <> "" ->
                  errorMessage m' = Some e).
Proof.
  intros Hw Hwf _.
  unfold FileModelRepository.saveModel, FileModelRepository.saveRegistry.
  rewrite Hw. eexists. eexists. split; [reflexivity |].
  unfold FileModelRepository.getModel, FileModelRepository.loadRegistry at 1.
  cbn [FileModelRepository.registryFile].
  rewrite lookup_insert_eq.
  change (d_info (toJSON m)) with (info m).
  rewrite (build_from_descriptor _ Hwf).
  split; [reflexivity |].
  split; [apply restoreStatus_info |].
  split; [apply restoreStatus_status |].
  intros e Hs He Hne.
  unfold FileModelRepository.restoreStatus, toJSON; cbn [d_status d_errorMessage].
  unfold status in Hs. unfold errorMessage in He. rewrite Hs, He.
  rewrite truthy_default by assumption. reflexivity.
Qed.

(** A failed download of "gpt2-small", saved in the empty store and read
    back. *)
Lemma saveModel_getModel_readBack_witness :
  exists st1 m',
    FileModelRepository.saveModel
      (markError "Download failed" (newModel Deployment.gpt2small))
      Deployment.emptyStore = (Return tt, st1)
    /\ FileModelRepository.getModel "gpt2-small" 9%Z st1 = (Return (Some m'), st1)
    /\ info m' = Deployment.gpt2small
    /\ status m' = ERROR
    /\ (forall e, ERROR = ERROR -> Some "Download failed" = Some e -> e <> "" ->
                  errorMessage m' = Some e).
Proof.
  apply (saveModel_getModel_readBack Deployment.emptyStore
           (markError "Download failed" (newModel Deployment.gpt2small)) 9%Z).
  - reflexivity.
  - repeat split; discriminate.
  - discriminate.
Defined.

(** C3 fails as stated: a record saved while Downloading is read back in
    state NotDownloaded. *)
Lemma getModel_after_saveModel_loses_Downloading :
  ~ (exists m',
        fst (FileModelRepository.getModel "gpt2-small" 9%Z
               (snd (FileModelRepository.saveModel
                       (markDownloading (newModel Deployment.gpt2small))
                       Deployment.emptyStore)))
        = Return (Some m')
        /\ info m' = Deployment.gpt2small
        /\ status m' = status (markDownloading (newModel Deployment.gpt2small))).
Proof.
  intros (m' & Hget & _ & Hs).
  vm_compute in Hget. inversion Hget; subst m'. discriminate Hs.
Qed.

End RecordStoreClaims.

(** ** The orchestration service *)

Ltac unfold_service :=
  unfold setupModel, downloadIfNeeded, loadIfDownloaded, generateText,
    unloadCurrentModel, try_catch, bind, ret, report, emit,
    onRepository, onLoader, callDownload, setCurrentModel.

(** Case analysis on a scrutinee that has no [match] inside it. *)
Ltac case_atom :=
  match goal with
  | |- context [match ?x with _ => _ end] =>
      lazymatch x with
      | context [match _ with _ => _ end] => fail
      | _ => destruct x eqn:?
      end
  end.

Ltac split_run := repeat (cbn in *; case_atom).

Section ServiceClaims.
Context {R D L : Type}.
Context `{!ModelRepository R, !ModelDownloader D, !ModelLoader L}.

Lemma isReady_true_iff (m : Model) : isReady m = true <-> status m = LOADED.
Proof. unfold isReady, status. destruct (_status m); simpl; split; congruence. Qed.

(** C6: with no active record, or an active record that is not Loaded,
    [generateText] answers the failure "No model loaded" and leaves the
    service as it was: no collaborator is called.  With a Loaded active
    record it calls the Activator's [generate] once and always resolves:
    with the response on success, and with a failure carrying the message
    when the Activator throws. *)
Theorem generateText_contract
    (s : ModelService R D L) (request : GenerationRequest) (clock : GenClock) :
  ((currentModel s = None
    \/ exists current, currentModel s = Some current /\ status current <> LOADED) ->
   generateText request clock s
   = (Return {| GenerationResult.success := false;
                GenerationResult.response := None;
                GenerationResult.error := Some "No model loaded" |}, s))
  /\ (forall current,
        currentModel s = Some current -> status current = LOADED ->
        generateText request clock s
        = (match fst (generate request clock (loader s)) with
           | Return response =>
               Return {| GenerationResult.success := true;
                         GenerationResult.response := Some response;
                         GenerationResult.error := None |}
           | Throw error =>
               Return {| GenerationResult.success := false;
                         GenerationResult.response := None;
                         GenerationResult.error :=
                           Some (message_or "Generation failed" error) |}
           end,
           {| repository := repository s; downloader := downloader s;
              loader := snd (generate request clock (loader s));
              currentModel := currentModel s;
              trace := trace s ++ [LoaderGenerate request] |})).
Proof.
  split.
  - intros [Hnone | (current & Hcur & Hst)]; unfold generateText; rewrite ?Hnone, ?Hcur.
    + reflexivity.
    + simpl. destruct (isReady current) eqn:Hr; [| reflexivity].
      apply isReady_true_iff in Hr. contradiction.
  - intros current Hcur Hst. unfold generateText. rewrite Hcur. simpl.
    apply isReady_true_iff in Hst. rewrite Hst. simpl.
    unfold_service. rewrite Hcur.
    destruct (generate request clock (loader s)) as [[response | error] l']; reflexivity.
Qed.

(** C7: when the repository returns a Loaded record and the Activator reports
    the model loaded, [setupModel] answers success with that record made the
    active one; besides the optional initial progress report it only reads
    the repository and asks the Activator whether the model is loaded: no
    download, no load, and the downloader and the loader are unchanged. *)
Theorem setupModel_idempotent_once_loaded
    (s : ModelService R D L) (modelName : string) (onProgress : bool) (now : Date)
    (model : Model) (repository' : R) :
  getModel modelName now (repository s) = (Return (Some model), repository') ->
  status model = LOADED ->
  isModelLoaded modelName (loader s) = true ->
  setupModel modelName onProgress now s
  = (Return {| SetupModelResult.success := true;
               SetupModelResult.model := Some modelName;
               SetupModelResult.status := Some LOADED;
               SetupModelResult.error := None |},
     {| repository := repository'; downloader := downloader s; loader := loader s;
        currentModel := Some model;
        trace := trace s
                 ++ (if onProgress then [Progress 0 "Initializing..."] else [])
                 ++ [RepositoryGetModel modelName; LoaderIsModelLoaded modelName] |}).
Proof.
  intros Hget Hst Hloaded.
  destruct model as [i st e t]; cbn in Hst; subst st.
  unfold_service.
  destruct onProgress; cbn; rewrite Hget; cbn; rewrite Hloaded; cbn;
    rewrite <- ?app_assoc; reflexivity.
Qed.

(** What [setupModel] does with a record that the repository returns in state
    Error: nothing but the two progress reports, and it answers success. *)
Lemma setupModel_on_Error_record
    (s : ModelService R D L) (modelName : string) (now : Date)
    (model : Model) (repository' : R) :
  getModel modelName now (repository s) = (Return (Some model), repository') ->
  status model = ERROR ->
  setupModel modelName true now s
  = (Return {| SetupModelResult.success := true;
               SetupModelResult.model := Some modelName;
               SetupModelResult.status := Some ERROR;
               SetupModelResult.error := None |},
     {| repository := repository'; downloader := downloader s; loader := loader s;
        currentModel := currentModel s;
        trace := trace s
                 ++ [Progress 0 "Initializing..."; RepositoryGetModel modelName;
                     Progress 100 "Model ready!"] |}).
Proof.
  intros Hget Hst.
  destruct model as [i st e t]; cbn in Hst; subst st.
  unfold_service. cbn. rewrite Hget. cbn.
  rewrite <- ?app_assoc. reflexivity.
Qed.

End ServiceClaims.

(** A fresh service has no active model. *)
Lemma generateText_contract_witness :
  generateText Deployment.hello Deployment.noon Deployment.fresh
  = (Return {| GenerationResult.success := false;
               GenerationResult.response := None;
               GenerationResult.error := Some "No model loaded" |},
     Deployment.fresh).
Proof.
  apply (proj1 (generateText_contract Deployment.fresh Deployment.hello Deployment.noon)).
  left. reflexivity.
Defined.

(** A second [setupModel("gpt2-small")] in the deployment. *)
Lemma setupModel_idempotent_once_loaded_witness :
  setupModel "gpt2-small" true 9%Z Deployment.loadedOnce
  = (Return {| SetupModelResult.success := true;
               SetupModelResult.model := Some "gpt2-small";
               SetupModelResult.status := Some LOADED;
               SetupModelResult.error := None |},
     {| repository := repository Deployment.loadedOnce;
        downloader := downloader Deployment.loadedOnce;
        loader := loader Deployment.loadedOnce;
        currentModel := Some (markLoaded 9%Z (newModel Deployment.gpt2small));
        trace := trace Deployment.loadedOnce
                 ++ [Progress 0 "Initializing..."]
                 ++ [RepositoryGetModel "gpt2-small"; LoaderIsModelLoaded "gpt2-small"] |}).
Proof.
  apply (setupModel_idempotent_once_loaded Deployment.loadedOnce "gpt2-small" true 9%Z
           (markLoaded 9%Z (newModel Deployment.gpt2small))
           (repository Deployment.loadedOnce)).
  - vm_compute. reflexivity.
  - reflexivity.
  - vm_compute. reflexivity.
Defined.

(** C1 fails on the code: after a [setupModel] whose download failed, or
    whose load failed, the persisted record is in state Error, and a new
    [setupModel] of the same name reads the repository, reports 100 and
    answers success with state Error; it re-enters neither Downloading nor
    Loading, saves nothing and calls neither the Acquirer nor the
    Activator. *)
Theorem setupModel_does_not_resume_from_Error :
  (fst (FileModelRepository.getModel "gpt2-small" 9%Z (repository Deployment.failedOnce))
   = Return (Some (markError "Download failed" (newModel Deployment.gpt2small)))
   /\ Deployment.answer (setupModel "gpt2-small" true 9%Z) Deployment.failedOnce
      = Return {| SetupModelResult.success := true;
                  SetupModelResult.model := Some "gpt2-small";
                  SetupModelResult.status := Some ERROR;
                  SetupModelResult.error := None |}
   /\ Deployment.eventsOf (setupModel "gpt2-small" true 9%Z) Deployment.failedOnce
      = [Progress 0 "Initializing..."; RepositoryGetModel "gpt2-small";
         Progress 100 "Model ready!"])
  /\ (fst (FileModelRepository.getModel "gpt2-small" 9%Z
             (repository Deployment.failedLoadOnce))
      = Return (Some (markError "Loading failed" (newModel Deployment.gpt2small)))
      /\ Deployment.answer (setupModel "gpt2-small" true 9%Z) Deployment.failedLoadOnce
         = Return {| SetupModelResult.success := true;
                     SetupModelResult.model := Some "gpt2-small";
                     SetupModelResult.status := Some ERROR;
                     SetupModelResult.error := None |}
      /\ Deployment.eventsOf (setupModel "gpt2-small" true 9%Z) Deployment.failedLoadOnce
         = [Progress 0 "Initializing..."; RepositoryGetModel "gpt2-small";
            Progress 100 "Model ready!"]).
Proof.
  assert (Hdownload :
    getModel "gpt2-small" 9%Z (repository Deployment.failedOnce)
    = (Return (Some (markError "Download failed" (newModel Deployment.gpt2small))),
       repository Deployment.failedOnce)) by (vm_compute; reflexivity).
  assert (Hload :
    getModel "gpt2-small" 9%Z (repository Deployment.failedLoadOnce)
    = (Return (Some (markError "Loading failed" (newModel Deployment.gpt2small))),
       repository Deployment.failedLoadOnce)) by (vm_compute; reflexivity).
  unfold Deployment.answer, Deployment.eventsOf, Deployment.after.
  rewrite (setupModel_on_Error_record _ _ _ _ _ Hdownload eq_refl).
  rewrite (setupModel_on_Error_record _ _ _ _ _ Hload eq_refl).
  cbn [fst snd trace]. rewrite !drop_app_length.
  simpl in Hdownload, Hload. rewrite Hdownload, Hload.
  repeat split.
Qed.

(** ** Progress reports *)

Section ProgressFacts.

Lemma percentages_app (l1 l2 : list Event) :
  percentages (l1 ++ l2) = percentages l1 ++ percentages l2.
Proof.
  induction l1 as [|e l1 IH]; [reflexivity |].
  destruct e; simpl; rewrite IH; reflexivity.
Qed.

Lemma percentages_map_Progress (f : Q -> Q) (stage : string) (l : list Q) :
  percentages (map (fun p => Progress (f p) stage) l) = map f l.
Proof. induction l; simpl; congruence. Qed.

Lemma rescale_within (p : Q) : within 0 100 p -> within 10 70 (rescale p).
Proof. unfold within, rescale. intros [H0 H1]. split; lra. Qed.

Lemma rescale_mono (p q : Q) : (p <= q)%Q -> (rescale p <= rescale q)%Q.
Proof. unfold rescale. intros. lra. Qed.

Lemma nondecreasing_cons (x : Q) (l : list Q) :
  nondecreasing (x :: l) <->
  match l with [] => True | y :: _ => (x <= y)%Q end /\ nondecreasing l.
Proof. destruct l; simpl; tauto. Qed.

Lemma nondecreasing_map_rescale (l : list Q) :
  nondecreasing l -> nondecreasing (map rescale l).
Proof.
  induction l as [|x [|y l] IH]; simpl; auto.
  intros [Hxy Hl]. split; [apply rescale_mono, Hxy | apply IH, Hl].
Qed.

(** Two non-decreasing runs separated by a threshold chain up. *)
Lemma nondecreasing_app (b : Q) (l1 l2 : list Q) :
  nondecreasing l1 -> Forall (fun x => (x <= b)%Q) l1 ->
  nondecreasing l2 -> Forall (fun y => (b <= y)%Q) l2 ->
  nondecreasing (l1 ++ l2).
Proof.
  intros H1 F1 H2 F2. induction l1 as [|x l1 IH]; [exact H2 |].
  apply Forall_cons_1 in F1 as [Hx F1].
  apply nondecreasing_cons in H1 as [Hhd H1].
  change ((x :: l1) ++ l2) with (x :: (l1 ++ l2)).
  apply nondecreasing_cons. split; [| apply IH; assumption].
  destruct l1 as [|y l1]; simpl; [| exact Hhd].
  destruct l2 as [|z l2]; [exact I |].
  apply Forall_cons_1 in F2 as [Hz _]. lra.
Qed.

(** The percentages of a call that ran the download: 0 and 10, the rescaled
    values of the Acquirer, then whatever follows from 70 on. *)
Lemma nondecreasing_download (calls post : list Q) :
  wellBehaved calls ->
  nondecreasing post -> Forall (fun y => (70 <= y)%Q) post ->
  nondecreasing (0%Q :: 10%Q :: map rescale calls ++ post).
Proof.
  intros [Hn Hw] Hp Fp.
  change (nondecreasing ([0%Q; 10%Q] ++ (map rescale calls ++ post))).
  apply (nondecreasing_app 10).
  - simpl. split; [lra | exact I].
  - repeat constructor; lra.
  - apply (nondecreasing_app 70); auto using nondecreasing_map_rescale.
    apply Forall_map. eapply Forall_impl; [exact Hw |].
    intros p Hp'. apply rescale_within in Hp'. apply Hp'.
  - apply Forall_app. split.
    + apply Forall_map. eapply Forall_impl; [exact Hw |].
      intros p Hp'. apply rescale_within in Hp'. apply Hp'.
    + eapply Forall_impl; [exact Fp |]. simpl. intros. lra.
Qed.

End ProgressFacts.

Ltac use_acquirer :=
  repeat match goal with
  | H : forall model r', (_, _) = (Return (Some model), r') -> _ |- _ =>
      specialize (H _ _ eq_refl)
  | Hd : download _ _ = _, H : wellBehaved (fst (fst (download _ _))) |- _ =>
      unfold info in H; rewrite Hd in H; cbn in H
  end.

Ltac in_cases H :=
  repeat match type of H with
  | _ \/ _ => destruct H as [H | H]
  | False => contradiction
  | In _ (_ ++ _) => apply List.in_app_or in H
  | In _ (map _ _) => apply List.in_map_iff in H; destruct H as (? & H & ?)
  | In _ (_ :: _) => destruct H as [H | H]
  | In _ [] => contradiction
  | _ = _ => first [discriminate H | inversion H; subst; clear H]
  end.

Section ProgressClaim.
Context {R D L : Type}.
Context `{!ModelRepository R, !ModelDownloader D, !ModelLoader L}.

(** C5, as the code has it: in one [setupModel] call with a progress
    callback, if the values the Acquirer reports never decrease and lie in
    [0,100], the percentages delivered never decrease; every percentage of
    the download stage lies in [10,70] and each Acquirer value [p] is
    delivered as [10 + p * 0.6]; when the call answers success, the last
    percentage delivered is 100, unless the record was already loaded, in
    which case the only percentage delivered is the initial 0. *)
Theorem setupModel_progress
    (s : ModelService R D L) (modelName : string) (now : Date) :
  (forall model repository',
      getModel modelName now (repository s) = (Return (Some model), repository') ->
      wellBehaved (fst (fst (download (info model) (downloader s))))) ->
  exists events,
    trace (snd (setupModel modelName true now s)) = trace s ++ events
    /\ nondecreasing (percentages events)
    /\ (forall p, In (Progress p "Downloading model...") events -> within 10 70 p)
    /\ (forall model repository' p,
          getModel modelName now (repository s) = (Return (Some model), repository') ->
          In (DownloaderDownload (info model)) events ->
          In p (fst (fst (download (info model) (downloader s)))) ->
          In (Progress (rescale p) "Downloading model...") events)
    /\ (forall result,
          fst (setupModel modelName true now s) = Return result ->
          SetupModelResult.success result = true ->
          if alreadyLoaded s modelName now
          then percentages events = [0%Q]
          else last (percentages events) = Some 100%Q).
Proof.
  intros Hacq. unfold alreadyLoaded. unfold_service.
  split_run; cbn in *; use_acquirer.
  all: eexists; (split; [rewrite <- ?app_assoc; reflexivity |]).
  all: repeat (progress (cbn [app percentages];
                         rewrite ?percentages_app, ?percentages_map_Progress)).
  all: split;
    [ first [ solve [cbn; repeat split; lra]
            | solve [apply nondecreasing_download;
                     [assumption | cbn; repeat split; lra | repeat constructor; lra]]
            | solve [rewrite <- (app_nil_r (map rescale _));
                     apply nondecreasing_download;
                     [assumption | exact I | constructor]] ]
    | ].
  all: split;
    [ intros q Hin; in_cases Hin;
      first [ solve [unfold within; split; lra]
            | solve [apply rescale_within;
                     match goal with
                     | Hw : wellBehaved ?l, Hx : In ?x ?l |- _ =>
                         exact (proj1 (List.Forall_forall _ _) (proj2 Hw) x Hx)
                     end] ]
    | ].
  all: split;
    [ intros model repository' q Hg Hd Hq;
      try discriminate Hg; inversion Hg; subst; clear Hg;
      in_cases Hd;
      match goal with
      | Hl : download _ _ = _ |- _ => unfold info in Hq; rewrite Hl in Hq; cbn in Hq
      end;
      repeat (apply List.in_cons);
      first [ apply List.in_or_app; left | idtac ];
      apply List.in_map_iff; eexists; (split; [reflexivity | exact Hq])
    | ].
  all: intros result Hres Hsucc; injection Hres as <-; try discriminate Hsucc.
  all: rewrite ?last_cons, ?last_app; try reflexivity.
Qed.

End ProgressClaim.

(** The first [setupModel("gpt2-small")] of the deployment, whose downloader
    reports 25, 50, 75 and 100. *)
Lemma setupModel_progress_witness :
  exists events,
    trace (snd (setupModel "gpt2-small" true 7%Z Deployment.fresh))
    = trace Deployment.fresh ++ events
    /\ nondecreasing (percentages events)
    /\ (forall p, In (Progress p "Downloading model...") events -> within 10 70 p)
    /\ (forall model repository' p,
          getModel "gpt2-small" 7%Z (repository Deployment.fresh)
          = (Return (Some model), repository') ->
          In (DownloaderDownload (info model)) events ->
          In p (fst (fst (download (info model) (downloader Deployment.fresh)))) ->
          In (Progress (rescale p) "Downloading model...") events)
    /\ (forall result,
          fst (setupModel "gpt2-small" true 7%Z Deployment.fresh) = Return result ->
          SetupModelResult.success result = true ->
          if alreadyLoaded Deployment.fresh "gpt2-small" 7%Z
          then percentages events = [0%Q]
          else last (percentages events) = Some 100%Q).
Proof.
  apply (setupModel_progress Deployment.fresh "gpt2-small" 7%Z).
  intros model repository' Hget.
  vm_compute in Hget. inversion Hget; subst model repository'.
  vm_compute. split; [repeat split; discriminate | repeat constructor; discriminate].
Defined.

(** C5 fails as stated: a [setupModel] of a model that is already loaded
    answers success after a single progress report, of 0; the last
    percentage delivered is not 100. *)
Lemma setupModel_short_circuit_stops_at_0 :
  ~ (forall result,
        Deployment.answer (setupModel "gpt2-small" true 9%Z) Deployment.loadedOnce
        = Return result ->
        SetupModelResult.success result = true ->
        last (percentages
                (Deployment.eventsOf (setupModel "gpt2-small" true 9%Z)
                                     Deployment.loadedOnce))
        = Some 100%Q).
Proof.
  intros H.
  specialize (H {| SetupModelResult.success := true;
                   SetupModelResult.model := Some "gpt2-small";
                   SetupModelResult.status := Some LOADED;
                   SetupModelResult.error := None |}).
  vm_compute in H. specialize (H eq_refl eq_refl). discriminate H.
Qed.


(** ** The Hugging Face downloader reports well-behaved progress *)

Section DownloaderFacts.

Lemma progressOf_mono (a b n : nat) :
  (a <= b)%nat -> (0 < n)%nat ->
  (HuggingFaceDownloader.progressOf a n <= HuggingFaceDownloader.progressOf b n)%Q.
Proof.
  intros Hab Hn. unfold HuggingFaceDownloader.progressOf, Qdiv.
  apply Qmult_le_compat_r; [| lra].
  apply Qmult_le_compat_r.
  - rewrite <- Zle_Qle. lia.
  - apply Qinv_le_0_compat. replace 0%Q with (inject_Z 0) by reflexivity.
    rewrite <- Zle_Qle. lia.
Qed.

Lemma progressOf_within (a n : nat) :
  (a <= n)%nat -> (0 < n)%nat ->
  within 0 100 (HuggingFaceDownloader.progressOf a n).
Proof.
  intros Han Hn. unfold within, HuggingFaceDownloader.progressOf.
  assert (Hpos : (0 < inject_Z (Z.of_nat n))%Q).
  { replace 0%Q with (inject_Z 0) by reflexivity. rewrite <- Zlt_Qlt. lia. }
  assert (H0 : (0 <= inject_Z (Z.of_nat a) / inject_Z (Z.of_nat n))%Q).
  { apply Qle_shift_div_l; [exact Hpos |].
    replace (0 * inject_Z (Z.of_nat n))%Q with (inject_Z 0) by reflexivity.
    rewrite <- Zle_Qle. lia. }
  assert (H1 : (inject_Z (Z.of_nat a) / inject_Z (Z.of_nat n) <= 1)%Q).
  { apply Qle_shift_div_r; [exact Hpos |].
    rewrite Qmult_1_l. rewrite <- Zle_Qle. lia. }
  split; lra.
Qed.

Lemma fetchAll_progress modelInfo fetch (files : list string) :
  forall (totalFiles completedFiles : nat) (d : gset string),
    (completedFiles + length files <= totalFiles)%nat ->
    let calls :=
      fst (HuggingFaceDownloader.fetchAll modelInfo fetch files totalFiles
             completedFiles d) in
    nondecreasing calls
    /\ Forall (fun p =>
                 (HuggingFaceDownloader.progressOf (S completedFiles) totalFiles <= p)%Q
                 /\ within 0 100 p) calls.
Proof.
  induction files as [|fileName rest IH]; intros totalFiles completedFiles d Hle; simpl.
  - split; [exact I | constructor].
  - simpl in Hle.
    destruct (fetch (huggingFaceId modelInfo) fileName
                (join (localPath modelInfo) fileName) d) as [[[] | t] d'].
    + specialize (IH totalFiles (S completedFiles) d' ltac:(lia)).
      destruct (HuggingFaceDownloader.fetchAll modelInfo fetch rest totalFiles
                  (S completedFiles) d') as [later d''].
      simpl in *. destruct IH as [Hnd Hall]. split.
      * apply nondecreasing_cons. split; [| exact Hnd].
        destruct later as [|y later]; [exact I |].
        apply Forall_cons_1 in Hall as [[Hy _] _].
        eapply Qle_trans; [| exact Hy]. apply progressOf_mono; lia.
      * constructor.
        -- split; [apply Qle_refl | apply progressOf_within; lia].
        -- eapply Forall_impl; [exact Hall |]. simpl. intros p [Hp Hw].
           split; [| exact Hw].
           eapply Qle_trans; [| exact Hp]. apply progressOf_mono; lia.
    + apply (IH totalFiles completedFiles d'). lia.
Qed.

(** Whatever the network does, the values [download] hands to its callback
    never decrease and lie in [0,100]. *)
Lemma download_wellBehaved (modelInfo : ModelInfo) (st : HuggingFaceDownloader.state) :
  wellBehaved (fst (fst (HuggingFaceDownloader.download modelInfo st))).
Proof.
  unfold HuggingFaceDownloader.download.
  destruct (HuggingFaceDownloader.mkdirFault st); [split; [exact I | constructor] |].
  pose proof (fetchAll_progress modelInfo (HuggingFaceDownloader.downloadFile st)
                (requiredFiles modelInfo) (length (requiredFiles modelInfo)) 0
                (HuggingFaceDownloader.disk st) ltac:(lia)) as H.
  destruct (HuggingFaceDownloader.fetchAll modelInfo
              (HuggingFaceDownloader.downloadFile st) (requiredFiles modelInfo)
              (length (requiredFiles modelInfo)) 0 (HuggingFaceDownloader.disk st))
    as [calls d].
  simpl in *. destruct H as [Hnd Hall]. split; [exact Hnd |].
  eapply Forall_impl; [exact Hall |]. simpl. tauto.
Qed.

End DownloaderFacts.

(** ** One active slot, several loaded models *)

Section JsMapFacts.
Context {V : Type}.

Lemma has_set_same (k : string) (v : V) (m : list (string * V)) :
  JsMap.has k (JsMap.set k v m) = true.
Proof.
  unfold JsMap.has. induction m as [|[k' v'] m IH]; simpl.
  - rewrite String.eqb_refl. reflexivity.
  - destruct (String.eqb k k') eqn:E; simpl; rewrite ?String.eqb_refl, ?E; auto.
Qed.

Lemma has_set_preserved (k k' : string) (v : V) (m : list (string * V)) :
  JsMap.has k m = true -> JsMap.has k (JsMap.set k' v m) = true.
Proof.
  unfold JsMap.has. induction m as [|[k0 v0] m IH]; simpl; [discriminate |].
  destruct (String.eqb k' k0) eqn:E'; simpl.
  - apply String.eqb_eq in E'. subst k0.
    destruct (String.eqb k k'); auto.
  - destruct (String.eqb k k0); auto.
Qed.

(** [set] never changes which key comes first in a non-empty map. *)
Lemma firstKey_set (k : string) (v : V) (m : list (string * V)) :
  m <> [] -> firstKey (JsMap.set k v m) = firstKey m.
Proof.
  destruct m as [|[k0 v0] m]; [congruence |]. intros _. simpl.
  destruct (String.eqb k k0) eqn:E; simpl; [| reflexivity].
  apply String.eqb_eq in E. congruence.
Qed.

End JsMapFacts.

(** Loading a model keeps every model that was loaded, and leaves the first
    key of a non-empty map where it was. *)
Lemma loadModel_keeps (m : Model) (st : TransformersLoader.state) (other : string) :
  TransformersLoader.isModelLoaded other st = true ->
  TransformersLoader.isModelLoaded other (snd (TransformersLoader.loadModel m st)) = true.
Proof.
  unfold TransformersLoader.isModelLoaded, TransformersLoader.loadModel.
  destruct (TransformersLoader.pipeline st _ _ _); simpl; auto using has_set_preserved.
Qed.

Lemma loadModel_loads (m : Model) (st st' : TransformersLoader.state) :
  TransformersLoader.loadModel m st = (Return true, st') ->
  TransformersLoader.isModelLoaded (name (info m)) st' = true.
Proof.
  unfold TransformersLoader.isModelLoaded, TransformersLoader.loadModel.
  destruct (TransformersLoader.pipeline st _ _ _); intros H; inversion H; subst.
  apply has_set_same.
Qed.

Lemma loadModel_firstKey (m : Model) (st : TransformersLoader.state) :
  TransformersLoader.loadedModels st <> [] ->
  firstKey (TransformersLoader.loadedModels (snd (TransformersLoader.loadModel m st)))
  = firstKey (TransformersLoader.loadedModels st).
Proof.
  unfold TransformersLoader.loadModel. intros Hne.
  destruct (TransformersLoader.pipeline st _ _ _); simpl; auto using firstKey_set.
Qed.

Section ActiveSlotClaims.
Context {R D : Type}.
Context `{!ModelRepository R, !ModelDownloader D}.

#[local] Arguments JsMap.has : simpl never.
#[local] Arguments JsMap.set : simpl never.

(** One [setupModel] call, seen from the loader: what it adds to the trace
    holds no unload, the models held before are held after, and a success on
    a NotDownloaded or Downloaded record makes that record the active one
    and leaves its model loaded. *)
Lemma setupModel_one_call
    (s : ModelService R D TransformersLoader.state)
    (modelName : string) (onProgress : bool) (now : Date) :
  exists events,
    trace (snd (setupModel modelName onProgress now s)) = trace s ++ events
    /\ (forall n, ~ In (LoaderUnloadModel n) events)
    /\ (forall other,
          isModelLoaded other (loader s) = true ->
          isModelLoaded other (loader (snd (setupModel modelName onProgress now s)))
          = true)
    /\ (forall model repository' result,
          getModel modelName now (repository s) = (Return (Some model), repository') ->
          status model = NOT_DOWNLOADED \/ status model = DOWNLOADED
          \/ alreadyLoaded s modelName now = true ->
          fst (setupModel modelName onProgress now s) = Return result ->
          SetupModelResult.success result = true ->
          getModelStatus (snd (setupModel modelName onProgress now s))
          = {| StatusReport.model := Some (name (info model));
               StatusReport.status := Some LOADED;
               StatusReport.ready := true |})
    /\ (forall model repository' result,
          getModel modelName now (repository s) = (Return (Some model), repository') ->
          status model = NOT_DOWNLOADED \/ status model = DOWNLOADED ->
          fst (setupModel modelName onProgress now s) = Return result ->
          SetupModelResult.success result = true ->
          isModelLoaded (name (info model))
            (loader (snd (setupModel modelName onProgress now s))) = true).
Proof.
  unfold alreadyLoaded. unfold_service.
  split_run; cbn in *.
  all: eexists; (split; [rewrite <- ?app_assoc; reflexivity |]).
  all: split; [intros n Hin; in_cases Hin |].
  all: split;
    [ intros other Hother; unfold TransformersLoader.isModelLoaded in *; cbn in *;
      first [ assumption
            | match goal with
              | H : TransformersLoader.loadModel ?m ?st = (_, ?st') |- _ =>
                  pose proof (loadModel_keeps m st other Hother) as Hkeep;
                  rewrite H in Hkeep; exact Hkeep
              end ]
    | ].
  all: split.
  all: intros model repository' result Hget Hst Hres Hsucc;
    inversion Hget; subst; clear Hget;
    injection Hres as <-; try discriminate Hsucc.
  all: destruct model as [i st e t]; cbn in *.
  all: try reflexivity.
  all: destruct st; cbn in *; try discriminate; try reflexivity.
  all: try (destruct Hst as [Hst | [Hst | Hst]]; discriminate Hst).
  all: try (destruct Hst as [Hst | Hst]; discriminate Hst).
  all: match goal with
       | H : TransformersLoader.loadModel ?m ?st = (Return ?b, ?st') |- _ =>
           destruct b; try discriminate; exact (loadModel_loads _ _ _ H)
       end.
Qed.

(** C4, as the code has it: one [setupModel] call never asks the Activator to
    unload; every model the Transformers loader held before the call is
    still held after it; when the call succeeds on a record that was
    NotDownloaded or Downloaded, or through the already-loaded test, the
    status reports that record as the active, ready model; in the first two
    cases the loader then holds the model under the record's name, and it
    still holds it after any [setupModel] call that follows. *)
Theorem setupModel_never_unloads
    (s : ModelService R D TransformersLoader.state)
    (modelName : string) (onProgress : bool) (now : Date) :
  exists events,
    trace (snd (setupModel modelName onProgress now s)) = trace s ++ events
    /\ (forall n, ~ In (LoaderUnloadModel n) events)
    /\ (forall other,
          isModelLoaded other (loader s) = true ->
          isModelLoaded other (loader (snd (setupModel modelName onProgress now s)))
          = true)
    /\ (forall model repository' result,
          getModel modelName now (repository s) = (Return (Some model), repository') ->
          status model = NOT_DOWNLOADED \/ status model = DOWNLOADED
          \/ alreadyLoaded s modelName now = true ->
          fst (setupModel modelName onProgress now s) = Return result ->
          SetupModelResult.success result = true ->
          getModelStatus (snd (setupModel modelName onProgress now s))
          = {| StatusReport.model := Some (name (info model));
               StatusReport.status := Some LOADED;
               StatusReport.ready := true |})
    /\ (forall model repository' result,
          getModel modelName now (repository s) = (Return (Some model), repository') ->
          status model = NOT_DOWNLOADED \/ status model = DOWNLOADED ->
          fst (setupModel modelName onProgress now s) = Return result ->
          SetupModelResult.success result = true ->
          isModelLoaded (name (info model))
            (loader (snd (setupModel modelName onProgress now s))) = true)
    /\ (forall model repository' result nextName nextProgress later,
          getModel modelName now (repository s) = (Return (Some model), repository') ->
          status model = NOT_DOWNLOADED \/ status model = DOWNLOADED ->
          fst (setupModel modelName onProgress now s) = Return result ->
          SetupModelResult.success result = true ->
          isModelLoaded (name (info model))
            (loader (snd (setupModel nextName nextProgress later
                            (snd (setupModel modelName onProgress now s))))) = true).
Proof.
  destruct (setupModel_one_call s modelName onProgress now)
    as (events & Htrace & Hnone & Hkeep & Hactive & Hloaded).
  exists events.
  split; [exact Htrace |]. split; [exact Hnone |]. split; [exact Hkeep |].
  split; [exact Hactive |]. split; [exact Hloaded |].
  intros model repository' result nextName nextProgress later Hget Hst Hres Hsucc.
  destruct (setupModel_one_call (snd (setupModel modelName onProgress now s))
              nextName nextProgress later) as (_ & _ & _ & Hkeep' & _).
  apply Hkeep'. exact (Hloaded model repository' result Hget Hst Hres Hsucc).
Qed.

(** [setupModel] leaves the first key of a non-empty [loadedModels] where it
    was. *)
Lemma setupModel_firstKey
    (s : ModelService R D TransformersLoader.state)
    (modelName : string) (onProgress : bool) (now : Date) :
  TransformersLoader.loadedModels (loader s) <> [] ->
  firstKey (TransformersLoader.loadedModels
              (loader (snd (setupModel modelName onProgress now s))))
  = firstKey (TransformersLoader.loadedModels (loader s)).
Proof.
  intros Hne. unfold_service.
  split_run; cbn in *; try reflexivity.
  all: match goal with
       | H : TransformersLoader.loadModel ?m ?st = (_, ?st') |- _ =>
           pose proof (loadModel_firstKey m st Hne) as Hfirst;
           rewrite H in Hfirst; exact Hfirst
       end.
Qed.

(** C10: with a Loaded active record, [generateText] is answered by the
    pipeline stored under the first key of the loader's map and by no other:
    the text of the response is what that pipeline returned for the prompt,
    the response names that key, whatever the active record is called, and
    when that pipeline throws the call fails without trying another one; a
    later [setupModel] never moves the first key; and after setting up
    "gpt2-small" and then "distilgpt2" the response is the one of the "gpt2"
    pipeline and names "gpt2-small" while the status reports
    "distilgpt2". *)
Theorem generateText_served_by_first_loaded :
  (forall (s : ModelService R D TransformersLoader.state)
          (request : GenerationRequest) (clock : GenClock)
          (current : Model) (first : string) (pipe : TransformersLoader.Pipeline)
          (rest : list (string * TransformersLoader.Pipeline))
          (result : TransformersLoader.PipelineResult),
      currentModel s = Some current -> status current = LOADED ->
      TransformersLoader.loadedModels (loader s) = (first, pipe) :: rest ->
      TransformersLoader.run pipe (prompt request) (TransformersLoader.optionsOf request)
      = Return result ->
      fst (generateText request clock s)
      = Return {| GenerationResult.success := true;
                  GenerationResult.response :=
                    Some {| GenerationResponse.text :=
                              TransformersLoader.generatedTextOf result;
                            GenerationResponse.tokensUsed :=
                              TransformersLoader.splitCount
                                (TransformersLoader.generatedTextOf result);
                            GenerationResponse.processingTimeMs :=
                              (endTime clock - startTime clock)%Z;
                            GenerationResponse.model := first;
                            GenerationResponse.timestamp := responseDate clock |};
                  GenerationResult.error := None |}
      /\ StatusReport.model (getModelStatus s) = Some (name (info current)))
  /\ (forall (s : ModelService R D TransformersLoader.state)
             (request : GenerationRequest) (clock : GenClock)
             (current : Model) (first : string) (pipe : TransformersLoader.Pipeline)
             (rest : list (string * TransformersLoader.Pipeline)) (t : thrown),
         currentModel s = Some current -> status current = LOADED ->
         TransformersLoader.loadedModels (loader s) = (first, pipe) :: rest ->
         TransformersLoader.run pipe (prompt request) (TransformersLoader.optionsOf request)
         = Throw t ->
         fst (generateText request clock s)
         = Return {| GenerationResult.success := false;
                     GenerationResult.response := None;
                     GenerationResult.error :=
                       Some ("Generation failed: " ++ message_or "Unknown error" t)%string |})
  /\ (forall (s : ModelService R D TransformersLoader.state)
             (modelName : string) (onProgress : bool) (now : Date),
         TransformersLoader.loadedModels (loader s) <> [] ->
         firstKey (TransformersLoader.loadedModels
                     (loader (snd (setupModel modelName onProgress now s))))
         = firstKey (TransformersLoader.loadedModels (loader s)))
  /\ (exists response,
         fst (generateText Deployment.hello Deployment.noon Deployment.loadedTwice)
         = Return {| GenerationResult.success := true;
                     GenerationResult.response := Some response;
                     GenerationResult.error := None |}
         /\ GenerationResponse.text response = "Hello [gpt2]"
         /\ GenerationResponse.model response = "gpt2-small"
         /\ StatusReport.model (getModelStatus Deployment.loadedTwice)
            = Some "distilgpt2").
Proof.
  split; [| split; [| split]].
  - intros s request clock current first pipe rest result Hcur Hst Hmap Hrun.
    destruct current as [i st e t]; cbn in Hst; subst st.
    unfold generateText. rewrite Hcur. cbn.
    unfold_service. cbn. unfold TransformersLoader.generate.
    rewrite Hmap, Hrun. cbn.
    split; [reflexivity |].
    unfold getModelStatus. rewrite Hcur. reflexivity.
  - intros s request clock current first pipe rest t Hcur Hst Hmap Hrun.
    destruct current as [i st e t0]; cbn in Hst; subst st.
    unfold generateText. rewrite Hcur. cbn.
    unfold_service. cbn. unfold TransformersLoader.generate.
    rewrite Hmap, Hrun. cbn. reflexivity.
  - apply setupModel_firstKey.
  - eexists. split; [vm_compute; reflexivity |].
    split; [vm_compute; reflexivity |]. split; vm_compute; reflexivity.
Qed.

End ActiveSlotClaims.

(** [setupModel("distilgpt2")] after [setupModel("gpt2-small")]. *)
Lemma setupModel_never_unloads_witness :
  isModelLoaded "gpt2-small" (loader Deployment.loadedTwice) = true
  /\ getModelStatus Deployment.loadedTwice
     = {| StatusReport.model := Some "distilgpt2";
          StatusReport.status := Some LOADED;
          StatusReport.ready := true |}.
Proof.
  destruct (setupModel_never_unloads Deployment.loadedOnce "distilgpt2" true 9%Z)
    as (events & _ & _ & Hkeep & Hactive & _).
  split.
  - apply Hkeep. vm_compute. reflexivity.
  - apply (Hactive (newModel Deployment.distilgpt2)
             (snd (getModel "distilgpt2" 9%Z (repository Deployment.loadedOnce)))
             (succeeded "distilgpt2"
                (markLoaded 9%Z (newModel Deployment.distilgpt2)))).
    + vm_compute. reflexivity.
    + left. reflexivity.
    + vm_compute. reflexivity.
    + reflexivity.
Defined.

(** C4 fails as stated: after [setupModel("gpt2-small")] and then
    [setupModel("distilgpt2")] both succeeded, the status does report
    "distilgpt2", but the Activator still holds "gpt2-small" and was never
    asked to release it. *)
Lemma second_setup_does_not_release_first :
  ~ (Deployment.answer (setupModel "gpt2-small" true 7%Z) Deployment.fresh
     = Return (succeeded "gpt2-small" (markLoaded 7%Z (newModel Deployment.gpt2small))) ->
     Deployment.answer (setupModel "distilgpt2" true 9%Z) Deployment.loadedOnce
     = Return (succeeded "distilgpt2" (markLoaded 9%Z (newModel Deployment.distilgpt2))) ->
     StatusReport.model (getModelStatus Deployment.loadedTwice) = Some "distilgpt2"
     /\ (isModelLoaded "gpt2-small" (loader Deployment.loadedTwice) = false
         \/ In (LoaderUnloadModel "gpt2-small") (trace Deployment.loadedTwice))).
Proof.
  intros H.
  destruct H as [_ [H | H]]; try (vm_compute; reflexivity).
  - vm_compute in H. discriminate H.
  - vm_compute in H. in_cases H.
Qed.

(** The deployment after both models were set up: the answer is the one of
    the "gpt2" pipeline. *)
Lemma generateText_served_by_first_loaded_witness :
  fst (generateText Deployment.hello Deployment.noon Deployment.loadedTwice)
  = Return {| GenerationResult.success := true;
              GenerationResult.response :=
                Some {| GenerationResponse.text := "Hello [gpt2]";
                        GenerationResponse.tokensUsed := 2;
                        GenerationResponse.processingTimeMs := 42%Z;
                        GenerationResponse.model := "gpt2-small";
                        GenerationResponse.timestamp := 1043%Z |};
              GenerationResult.error := None |}
  /\ StatusReport.model (getModelStatus Deployment.loadedTwice)
     = Some (name (info (markLoaded 9%Z (newModel Deployment.distilgpt2)))).
Proof.
  apply (proj1 generateText_served_by_first_loaded
           Deployment.loadedTwice Deployment.hello Deployment.noon
           (markLoaded 9%Z (newModel Deployment.distilgpt2))
           "gpt2-small" (Deployment.echo "gpt2")
           [("distilgpt2", Deployment.echo "distilgpt2")]
           (TransformersLoader.ResArray
              [ {| TransformersLoader.generated_text := Some "Hello [gpt2]";
                   TransformersLoader.r_text := None;
                   TransformersLoader.asString := "[object Object]" |} ])).
  - vm_compute. reflexivity.
  - reflexivity.
  - vm_compute. reflexivity.
  - vm_compute. reflexivity.
Defined.

(** * Further properties of the code *)

(** ** The record *)

Section RecordInvariants.

(** X1: a record made by the constructor and the transition methods carries
    an error message exactly when its state is Error. *)
Theorem errorMessage_present_iff_Error (m : Model) :
  reachable m -> (is_Some (errorMessage m) <-> status m = ERROR).
Proof.
  induction 1; simpl; split; intros Hx;
    first [ discriminate Hx | inversion Hx; discriminate
          | reflexivity | eexists; reflexivity ].
Qed.

(** A record whose load failed after a successful download. *)
Lemma errorMessage_present_iff_Error_witness :
  is_Some (errorMessage
             (markError "Loading failed"
                (markLoading (markDownloaded (markDownloading
                   (newModel Deployment.gpt2small))))))
  <-> status (markError "Loading failed"
                (markLoading (markDownloaded (markDownloading
                   (newModel Deployment.gpt2small))))) = ERROR.
Proof.
  apply (errorMessage_present_iff_Error
           (markError "Loading failed"
              (markLoading (markDownloaded (markDownloading
                 (newModel Deployment.gpt2small)))))).
  repeat constructor.
Defined.

End RecordInvariants.

(** ** The catalog *)

Section JsMapLookup.
Context {V : Type}.

Lemma get_set_same (k : string) (v : V) (m : list (string * V)) :
  JsMap.get k (JsMap.set k v m) = Some v.
Proof.
  induction m as [|[k' v'] m IH]; simpl.
  - rewrite String.eqb_refl. reflexivity.
  - destruct (String.eqb k k') eqn:E; simpl; rewrite ?String.eqb_refl, ?E; auto.
Qed.

Lemma get_set_other (k k' : string) (v : V) (m : list (string * V)) :
  k <> k' -> JsMap.get k (JsMap.set k' v m) = JsMap.get k m.
Proof.
  intros Hne. induction m as [|[k0 v0] m IH]; simpl.
  - destruct (String.eqb k k') eqn:E; [apply String.eqb_eq in E; contradiction | reflexivity].
  - destruct (String.eqb k' k0) eqn:E'; simpl.
    + apply String.eqb_eq in E'. subst k0.
      destruct (String.eqb k k') eqn:E; [apply String.eqb_eq in E; contradiction | reflexivity].
    + destruct (String.eqb k k0); auto.
Qed.

Lemma keys_set (k : string) (v : V) (m : list (string * V)) :
  JsMap.keys (JsMap.set k v m)
  = if JsMap.has k m then JsMap.keys m else JsMap.keys m ++ [k].
Proof.
  unfold JsMap.has, JsMap.keys. induction m as [|[k' v'] m IH]; simpl; [reflexivity |].
  destruct (String.eqb k k') eqn:E; simpl.
  - apply String.eqb_eq in E. subst. reflexivity.
  - rewrite IH. destruct (JsMap.get k m); reflexivity.
Qed.

Lemma has_iff_In_keys (k : string) (m : list (string * V)) :
  JsMap.has k m = true <-> In k (JsMap.keys m).
Proof.
  unfold JsMap.has, JsMap.keys. induction m as [|[k' v'] m IH]; simpl.
  - split; [discriminate | tauto].
  - destruct (String.eqb k k') eqn:E.
    + apply String.eqb_eq in E. subst. simpl. tauto.
    + apply String.eqb_neq in E. rewrite IH. split; [tauto |].
      intros [H | H]; [congruence | exact H].
Qed.

Lemma get_delete_same (k : string) (m : list (string * V)) :
  NoDup (JsMap.keys m) -> JsMap.get k (JsMap.delete k m) = None.
Proof.
  unfold JsMap.keys. induction m as [|[k' v'] m IH]; simpl; intros Hnd; [reflexivity |].
  apply NoDup_cons in Hnd as [Hnotin Hnd].
  destruct (String.eqb k k') eqn:E; simpl.
  - apply String.eqb_eq in E. subst k'.
    destruct (JsMap.get k m) eqn:G; [| reflexivity].
    exfalso. apply Hnotin. apply list_elem_of_In.
    apply (has_iff_In_keys k m). unfold JsMap.has. rewrite G. reflexivity.
  - rewrite E. apply IH, Hnd.
Qed.

Lemma get_delete_other (k k' : string) (m : list (string * V)) :
  k <> k' -> JsMap.get k (JsMap.delete k' m) = JsMap.get k m.
Proof.
  intros Hne. induction m as [|[k0 v0] m IH]; simpl; [reflexivity |].
  destruct (String.eqb k' k0) eqn:E'; simpl.
  - apply String.eqb_eq in E'. subst k0.
    destruct (String.eqb k k') eqn:E; [apply String.eqb_eq in E; contradiction | reflexivity].
  - destruct (String.eqb k k0); auto.
Qed.

Lemma NoDup_keys_set (k : string) (v : V) (m : list (string * V)) :
  NoDup (JsMap.keys m) -> NoDup (JsMap.keys (JsMap.set k v m)).
Proof.
  intros Hnd. rewrite keys_set. destruct (JsMap.has k m) eqn:Hhas; [exact Hnd |].
  apply NoDup_app. split; [exact Hnd |]. split; [| apply NoDup_singleton].
  intros x Hx Hk. apply list_elem_of_singleton in Hk. subst x.
  apply list_elem_of_In, has_iff_In_keys in Hx. congruence.
Qed.

Lemma keys_delete_sublist (k : string) (m : list (string * V)) :
  sublist (JsMap.keys (JsMap.delete k m)) (JsMap.keys m).
Proof.
  unfold JsMap.keys. induction m as [|[k' v'] m IH]; simpl; [constructor |].
  destruct (String.eqb k k'); simpl.
  - apply sublist_cons. reflexivity.
  - apply sublist_skip, IH.
Qed.

Lemma NoDup_keys_delete (k : string) (m : list (string * V)) :
  NoDup (JsMap.keys m) -> NoDup (JsMap.keys (JsMap.delete k m)).
Proof. intros Hnd. eapply sublist_NoDup; [exact Hnd | apply keys_delete_sublist]. Qed.

End JsMapLookup.

Section CatalogQueries.
Import ModelRegistry.

Lemma insertByPopularity_perm e l :
  Permutation (insertByPopularity e l) (e :: l).
Proof.
  induction l as [|x l IH]; simpl; [reflexivity |].
  destruct (popularity x <=? popularity e)%Z; [reflexivity |].
  rewrite IH. apply perm_swap.
Qed.

Lemma insertByPopularity_In e x l :
  In x (insertByPopularity e l) <-> x = e \/ In x l.
Proof.
  induction l as [|y l IH]; simpl; [intuition |].
  destruct (popularity y <=? popularity e)%Z; simpl; [intuition |].
  rewrite IH. intuition.
Qed.

Lemma insertByPopularity_sorted e l :
  StronglySorted noLessPopular l ->
  StronglySorted noLessPopular (insertByPopularity e l).
Proof.
  induction 1 as [|x l Hs IH Hall]; simpl; [repeat constructor |].
  destruct (popularity x <=? popularity e)%Z eqn:E.
  - apply Z.leb_le in E. constructor; [constructor; assumption |].
    constructor; [exact E |].
    eapply Forall_impl; [exact Hall |]. unfold noLessPopular. simpl. intros. lia.
  - apply Z.leb_gt in E. constructor; [exact IH |].
    apply List.Forall_forall. intros y Hy. apply insertByPopularity_In in Hy.
    destruct Hy as [-> | Hy]; [unfold noLessPopular; lia |].
    exact (proj1 (List.Forall_forall _ _) Hall y Hy).
Qed.

Lemma insertByPopularity_filter (p : Z) e l :
  List.filter (fun x => (popularity x =? p)%Z) (insertByPopularity e l)
  = List.filter (fun x => (popularity x =? p)%Z) (e :: l).
Proof.
  induction l as [|x l IH]; [reflexivity |].
  simpl. destruct (popularity x <=? popularity e)%Z eqn:E; [reflexivity |].
  apply Z.leb_gt in E. simpl. rewrite IH. simpl.
  destruct (popularity x =? p)%Z eqn:Ex, (popularity e =? p)%Z eqn:Ee; try reflexivity.
  apply Z.eqb_eq in Ex, Ee. lia.
Qed.

Lemma sortByPopularity_spec (l : list ModelRegistryEntry) :
  Permutation (sortByPopularity l) l
  /\ StronglySorted noLessPopular (sortByPopularity l)
  /\ (forall p : Z,
        List.filter (fun x => (popularity x =? p)%Z) (sortByPopularity l)
        = List.filter (fun x => (popularity x =? p)%Z) l).
Proof.
  unfold sortByPopularity.
  induction l as [|e l (Hp & Hs & Hf)]; simpl.
  - repeat split; constructor.
  - split; [| split].
    + rewrite insertByPopularity_perm. constructor. exact Hp.
    + apply insertByPopularity_sorted, Hs.
    + intros p. rewrite insertByPopularity_filter. simpl. rewrite Hf. reflexivity.
Qed.

(** X2: [getAllModels] returns every entry of the catalog exactly once, the
    more popular first, and entries of equal popularity in the order they
    were registered. *)
Theorem getAllModels_sorted_stable (models : list (string * ModelRegistryEntry)) :
  Permutation (getAllModels models) (map snd models)
  /\ StronglySorted noLessPopular (getAllModels models)
  /\ (forall p : Z,
        List.filter (fun x => (popularity x =? p)%Z) (getAllModels models)
        = List.filter (fun x => (popularity x =? p)%Z) (map snd models)).
Proof. apply sortByPopularity_spec. Qed.

(** X3: [addCustomModel] then [getModel]: the entry is found under its own
    name, every other name answers as before, and an entry registered under
    a name already known replaces the old one where it stood instead of
    adding a key. *)
Theorem addCustomModel_getModel (entry : ModelRegistryEntry)
    (models : list (string * ModelRegistryEntry)) :
  getModel (name (info entry)) (addCustomModel entry models) = Some entry
  /\ (forall other, other <> name (info entry) ->
        getModel other (addCustomModel entry models) = getModel other models)
  /\ JsMap.keys (addCustomModel entry models)
     = (if JsMap.has (name (info entry)) models
        then JsMap.keys models
        else JsMap.keys models ++ [name (info entry)]).
Proof.
  unfold getModel, addCustomModel. split; [apply get_set_same |].
  split; [intros other Hne; apply get_set_other, Hne | apply keys_set].
Qed.

Lemma filter_sorted (f : ModelRegistryEntry -> bool) l :
  StronglySorted noLessPopular l -> StronglySorted noLessPopular (List.filter f l).
Proof.
  induction 1 as [|x l Hs IH Hall]; simpl; [constructor |].
  destruct (f x); [| exact IH]. constructor; [exact IH |].
  apply List.Forall_forall. intros y Hy. apply List.filter_In in Hy as [Hy _].
  exact (proj1 (List.Forall_forall _ _) Hall y Hy).
Qed.

Lemma In_getAllModels e models : In e (getAllModels models) <-> In e (map snd models).
Proof.
  destruct (sortByPopularity_spec (map snd models)) as [Hp _]. fold (getAllModels models) in Hp.
  split; intros H.
  - eapply Permutation_in; [exact Hp | exact H].
  - eapply Permutation_in; [symmetry; exact Hp | exact H].
Qed.

Lemma includes_true_iff (s : string) (l : list string) :
  includes s l = true <-> In s l.
Proof.
  unfold includes. rewrite existsb_exists. split.
  - intros (y & Hy & E). apply String.eqb_eq in E. subst. exact Hy.
  - intros H. exists s. split; [exact H | apply String.eqb_refl].
Qed.

(** X4: the two filtered views of the catalog keep the popularity order of
    [getAllModels] and hold exactly the entries that carry the tag, resp.
    that are verified. *)
Theorem catalog_views_sorted_exact (tag : string)
    (models : list (string * ModelRegistryEntry)) :
  StronglySorted noLessPopular (getModelsByTag tag models)
  /\ (forall e, In e (getModelsByTag tag models)
                <-> In e (map snd models) /\ In tag (tags e))
  /\ StronglySorted noLessPopular (getVerifiedModels models)
  /\ (forall e, In e (getVerifiedModels models)
                <-> In e (map snd models) /\ verified e = true).
Proof.
  unfold getModelsByTag, getVerifiedModels.
  pose proof (proj1 (proj2 (sortByPopularity_spec (map snd models)))) as Hs.
  fold (getAllModels models) in Hs.
  split; [apply filter_sorted, Hs |]. split.
  { intros e. rewrite List.filter_In, In_getAllModels, includes_true_iff. reflexivity. }
  split; [apply filter_sorted, Hs |].
  intros e. rewrite List.filter_In, In_getAllModels. reflexivity.
Qed.

Lemma lowerChar_idempotent (c : ascii) :
  JsString.lowerChar (JsString.lowerChar c) = JsString.lowerChar c.
Proof. destruct c as [[] [] [] [] [] [] [] []]; reflexivity. Qed.

Lemma toLowerCase_idempotent (s : string) :
  JsString.toLowerCase (JsString.toLowerCase s) = JsString.toLowerCase s.
Proof. induction s; simpl; rewrite ?lowerChar_idempotent; congruence. Qed.

Lemma prefix_refl (s : string) : String.prefix s s = true.
Proof.
  induction s as [|c s IH]; simpl; [reflexivity |].
  destruct (ascii_dec c c); [exact IH | contradiction].
Qed.

Lemma includes_self (s : string) : JsString.includes s s = true.
Proof.
  destruct s as [|a r]; [reflexivity |].
  change (String.prefix (String a r) (String a r)
          || JsString.includes (String a r) r = true).
  rewrite prefix_refl. reflexivity.
Qed.

Lemma includes_empty (s : string) : JsString.includes "" s = true.
Proof. destruct s; reflexivity. Qed.

Lemma filterEntries_Return keep (f : ModelRegistryEntry -> bool) l :
  (forall e, In e l -> keep e = Return (f e)) ->
  filterEntries keep l = Return (List.filter f l).
Proof.
  induction l as [|e l IH]; simpl; intros H; [reflexivity |].
  rewrite (H e) by auto. rewrite IH by auto. reflexivity.
Qed.

Lemma filterEntries_Throw_iff keep l :
  (exists t, filterEntries keep l = Throw t)
  <-> exists e t, In e l /\ keep e = Throw t.
Proof.
  induction l as [|e l IH]; simpl.
  - split; [intros [t H]; discriminate | intros (e & t & [] & _)].
  - destruct (keep e) as [b | t0] eqn:E.
    + destruct (filterEntries keep l) as [kept | t1].
      * split; [intros [t H]; discriminate |].
        intros (e' & t & [<- | Hin] & Ht); [congruence |].
        destruct (proj2 IH) as [t' Ht']; [eauto | discriminate Ht'].
      * split; [| eauto]. intros _.
        destruct (proj1 IH) as (e' & t & Hin & Ht); eauto 6.
    + split; [| eauto]. intros _. exists e, t0. auto.
Qed.

(** The test [searchModels] applies to an entry that has a description. *)
Lemma matchesQuery_described lowerQuery e d :
  description (info e) = Some d ->
  matchesQuery lowerQuery e
  = Return (JsString.includes lowerQuery (JsString.toLowerCase (name (info e)))
            || JsString.includes lowerQuery (JsString.toLowerCase d)
            || existsb (fun tag => JsString.includes lowerQuery (JsString.toLowerCase tag))
                       (tags e)).
Proof.
  intros Hd. unfold matchesQuery. rewrite Hd.
  destruct (JsString.includes lowerQuery (JsString.toLowerCase (name (info e))));
    [reflexivity |].
  destruct (JsString.includes lowerQuery (JsString.toLowerCase d)); reflexivity.
Qed.

(** X5: [searchModels] ignores the letter case of the query; the empty query
    returns the whole catalog in popularity order; and a search that
    returns finds every entry whose name, in any letter case, is the
    query. *)
Theorem searchModels_case_insensitive (query : string)
    (models : list (string * ModelRegistryEntry)) :
  searchModels (JsString.toLowerCase query) models = searchModels query models
  /\ searchModels "" models = Return (getAllModels models)
  /\ (forall e result,
        searchModels query models = Return result ->
        In e (map snd models) ->
        JsString.toLowerCase (name (info e)) = JsString.toLowerCase query ->
        In e result).
Proof.
  unfold searchModels. rewrite toLowerCase_idempotent. split; [reflexivity |].
  split.
  - simpl. rewrite (filterEntries_Return _ (fun _ => true)).
    + f_equal. induction (getAllModels models); simpl; congruence.
    + intros e _. unfold matchesQuery. rewrite includes_empty. reflexivity.
  - intros e result Hres Hin Hname.
    assert (Hm : matchesQuery (JsString.toLowerCase query) e = Return true).
    { unfold matchesQuery. rewrite Hname, includes_self. reflexivity. }
    apply In_getAllModels in Hin. revert result Hres.
    induction (getAllModels models) as [|x l IH]; [destruct Hin |].
    simpl. intros result.
    destruct Hin as [-> | Hin].
    + rewrite Hm. destruct (filterEntries _ l); [| discriminate].
      intros H; injection H as <-. left. reflexivity.
    + destruct (matchesQuery _ x) as [b |]; [| discriminate].
      destruct (filterEntries _ l) as [kept |]; [| discriminate].
      intros H; injection H as <-.
      specialize (IH Hin kept eq_refl). destruct b; simpl; auto.
Qed.

(** A catalog entry called "GPT2-Small", searched as "gpt2-SMALL". *)
Lemma searchModels_case_insensitive_witness :
  In Deployment.shouting
     (match searchModels "gpt2-SMALL" [("GPT2-Small", Deployment.shouting)] with
      | Return result => result
      | Throw _ => []
      end).
Proof.
  destruct (searchModels "gpt2-SMALL" [("GPT2-Small", Deployment.shouting)])
    as [result |] eqn:E; [| discriminate E].
  apply (proj2 (proj2 (searchModels_case_insensitive "gpt2-SMALL"
                         [("GPT2-Small", Deployment.shouting)]))
           Deployment.shouting result E).
  - left. reflexivity.
  - reflexivity.
Defined.

(** X6: [searchModels] throws exactly when the catalog holds an entry without
    a description whose name does not contain the query; otherwise it
    returns, in popularity order, exactly the entries whose name,
    description or one of whose tags contains the query, letter case
    ignored. *)
Theorem searchModels_throws_iff (query : string)
    (models : list (string * ModelRegistryEntry)) :
  ((exists t, searchModels query models = Throw t)
   <-> exists e, In e (map snd models)
                 /\ description (info e) = None
                 /\ JsString.includes (JsString.toLowerCase query)
                      (JsString.toLowerCase (name (info e))) = false)
  /\ (forall result,
        searchModels query models = Return result ->
        StronglySorted noLessPopular result
        /\ forall e, In e result
                     <-> In e (map snd models)
                         /\ matchesQuery (JsString.toLowerCase query) e = Return true).
Proof.
  unfold searchModels. split.
  - rewrite filterEntries_Throw_iff. split.
    + intros (e & t & Hin & Ht). exists e. apply In_getAllModels in Hin.
      split; [exact Hin |]. unfold matchesQuery in Ht.
      destruct (JsString.includes _ (JsString.toLowerCase (name (info e))));
        [discriminate |].
      destruct (description (info e)) as [d |]; [| auto].
      destruct (JsString.includes _ (JsString.toLowerCase d)); discriminate.
    + intros (e & Hin & Hd & Hn). apply In_getAllModels in Hin.
      exists e. eexists. split; [exact Hin |].
      unfold matchesQuery. rewrite Hn, Hd. reflexivity.
  - intros result.
    pose proof (proj1 (proj2 (sortByPopularity_spec (map snd models)))) as Hs.
    fold (getAllModels models) in Hs.
    assert (Hmem : forall e, In e (map snd models) <-> In e (getAllModels models))
      by (intros e; symmetry; apply In_getAllModels).
    revert result Hs Hmem. generalize (map snd models) as values.
    induction (getAllModels models) as [|x l IH]; simpl; intros values result Hs Hmem Hres.
    + injection Hres as <-. split; [constructor |]. intros e. split; [intros [] |].
      intros [H _]. apply Hmem in H. exact H.
    + apply StronglySorted_inv in Hs as [Hs Hall].
      destruct (matchesQuery _ x) as [b |] eqn:Ex; [| discriminate].
      destruct (filterEntries _ l) as [kept |] eqn:El; [| discriminate].
      injection Hres as <-.
      destruct (IH l kept Hs (fun e => conj (fun H => H) (fun H => H)) eq_refl)
        as [Hks Hkin].
      split.
      * destruct b; [| exact Hks]. constructor; [exact Hks |].
        apply List.Forall_forall. intros y Hy. apply Hkin in Hy as [Hy _].
        exact (proj1 (List.Forall_forall _ _) Hall y Hy).
      * intros e. rewrite Hmem. simpl. destruct b; simpl; rewrite ?Hkin.
        -- split; [intros [<- | [H1 H2]]; auto | intros [[<- | H1] H2]; auto].
        -- split; [intros [H1 H2]; auto |].
           intros [[<- | H1] H2]; [congruence | auto].
Qed.

End CatalogQueries.

(** ** The logger's level filter and the health status *)

Section LoggerAndHealth.

Lemma parseLogLevel_lower (level : string) :
  Logger.parseLogLevel (JsString.toLowerCase level) = Logger.parseLogLevel level.
Proof. unfold Logger.parseLogLevel. rewrite toLowerCase_idempotent. reflexivity. Qed.

(** X7: the level filter.  An error is written at every configured level;
    whatever is written at one level is written at every more verbose one;
    the configured level is read without regard to letter case; and an
    unset, empty or unknown LOG_LEVEL means INFO, under which debug messages
    are dropped. *)
Theorem shouldLog_monotone :
  (forall logLevel, Logger.shouldLog Logger.ERROR logLevel = true)
  /\ (forall level logLevel logLevel',
        Logger.shouldLog level logLevel = true ->
        (Logger.LogLevel_value logLevel <= Logger.LogLevel_value logLevel')%Z ->
        Logger.shouldLog level logLevel' = true)
  /\ (forall LOG_LEVEL,
        Logger.newLogger (JsString.toLowerCase <$> LOG_LEVEL) = Logger.newLogger LOG_LEVEL)
  /\ (forall LOG_LEVEL,
        ~ In (JsString.toLowerCase <$> LOG_LEVEL)
             [Some "error"; Some "warn"; Some "debug"] ->
        Logger.newLogger LOG_LEVEL = Logger.INFO
        /\ Logger.shouldLog Logger.DEBUG (Logger.newLogger LOG_LEVEL) = false
        /\ Logger.shouldLog Logger.INFO (Logger.newLogger LOG_LEVEL) = true).
Proof.
  split; [intros []; reflexivity |].
  split.
  { unfold Logger.shouldLog. intros level l l' H Hle.
    apply Z.leb_le in H. apply Z.leb_le. lia. }
  split.
  { intros [s |]; [| reflexivity]. unfold Logger.newLogger. simpl.
    destruct s as [|c s]; [reflexivity |]. simpl.
    change (String (JsString.lowerChar c) (JsString.toLowerCase s))
      with (JsString.toLowerCase (String c s)).
    apply parseLogLevel_lower. }
  intros LOG_LEVEL Hnot.
  assert (H : Logger.newLogger LOG_LEVEL = Logger.INFO).
  { unfold Logger.newLogger. destruct LOG_LEVEL as [[|c s] |]; try reflexivity.
    simpl truthy. cbv iota. simpl default. unfold Logger.parseLogLevel.
    simpl in Hnot.
    destruct (String.eqb (JsString.toLowerCase (String c s)) "error") eqn:E1.
    { apply String.eqb_eq in E1. exfalso. apply Hnot. left. f_equal. exact (eq_sym E1). }
    destruct (String.eqb (JsString.toLowerCase (String c s)) "warn") eqn:E2.
    { apply String.eqb_eq in E2. exfalso. apply Hnot. right. left. f_equal. exact (eq_sym E2). }
    destruct (String.eqb (JsString.toLowerCase (String c s)) "info"); [reflexivity |].
    destruct (String.eqb (JsString.toLowerCase (String c s)) "debug") eqn:E4; [| reflexivity].
    apply String.eqb_eq in E4. exfalso. apply Hnot. right. right. left. f_equal.
    exact (eq_sym E4). }
  rewrite H. repeat split.
Qed.

(** X8: the overall health.  It is unhealthy exactly when the recorded error
    is a non-empty string (an error recorded as "" does not count, and
    [clearError] always lifts it); with a positive heap total it is healthy
    exactly when there is no such error, the heap in use is at most 90% of
    the total and at least one model is loaded. *)
Theorem determineOverallStatus_cases
    (lastError : option string) (memoryUsage : HealthMonitor.MemoryUsage)
    (loadedModels : nat) :
  (0 < HealthMonitor.heapTotal memoryUsage)%Q ->
  (HealthMonitor.determineOverallStatus lastError memoryUsage loadedModels
   = HealthMonitor.unhealthy
   <-> exists e, lastError = Some e /\ e <> "")
  /\ (HealthMonitor.determineOverallStatus lastError memoryUsage loadedModels
      = HealthMonitor.healthy
      <-> truthy lastError = false
          /\ (HealthMonitor.heapUsed memoryUsage * 100
              <= 90 * HealthMonitor.heapTotal memoryUsage)%Q
          /\ loadedModels <> 0%nat)
  /\ HealthMonitor.determineOverallStatus
       (HealthMonitor.recordError "" lastError) memoryUsage loadedModels
     <> HealthMonitor.unhealthy
  /\ HealthMonitor.determineOverallStatus
       (HealthMonitor.clearError lastError) memoryUsage loadedModels
     <> HealthMonitor.unhealthy.
Proof.
  intros Hpos. unfold HealthMonitor.determineOverallStatus.
  assert (Hpct :
    Qle_bool (HealthMonitor.heapUsed memoryUsage / HealthMonitor.heapTotal memoryUsage * 100) 90
    = true
    <-> (HealthMonitor.heapUsed memoryUsage * 100
         <= 90 * HealthMonitor.heapTotal memoryUsage)%Q).
  { rewrite Qle_bool_iff.
    set (u := HealthMonitor.heapUsed memoryUsage) in *.
    set (t := HealthMonitor.heapTotal memoryUsage) in *.
    assert (Hne : ~ t == 0) by lra.
    assert (Heq : u / t * 100 == u * 100 / t) by (field; exact Hne).
    rewrite Heq. split; intros H.
    - apply (Qmult_le_compat_r _ _ t) in H; [| lra].
      assert (Hback : u * 100 / t * t == u * 100) by (field; exact Hne).
      rewrite Hback in H. exact H.
    - apply Qle_shift_div_r; [exact Hpos | exact H]. }
  assert (Hun : forall le,
    (if truthy le then HealthMonitor.unhealthy
     else if negb (Qle_bool
                     (HealthMonitor.heapUsed memoryUsage
                      / HealthMonitor.heapTotal memoryUsage * 100) 90)
          then HealthMonitor.degraded
          else if (loadedModels =? 0)%nat then HealthMonitor.degraded
               else HealthMonitor.healthy) = HealthMonitor.unhealthy
    <-> truthy le = true).
  { intros le. destruct (truthy le); [tauto |].
    destruct (Qle_bool _ 90); simpl; [destruct (loadedModels =? 0)%nat |];
      split; discriminate. }
  split; [| split; [| split]].
  - rewrite Hun. destruct lastError as [[|c s] |]; simpl; split;
      try discriminate; try (intros (e & He & Hne); congruence).
    intros _. eexists. split; [reflexivity | discriminate].
  - destruct (truthy lastError); [split; [discriminate | intros [H _]; discriminate] |].
    destruct (Qle_bool _ 90) eqn:Eq; simpl.
    + destruct (loadedModels =? 0)%nat eqn:En.
      * apply Nat.eqb_eq in En. split; [discriminate | intros (_ & _ & H); contradiction].
      * apply Nat.eqb_neq in En. split; [| reflexivity]. intros _.
        split; [reflexivity | split; [apply Hpct; reflexivity | exact En]].
    + split; [discriminate |]. intros (_ & H & _). apply Hpct in H. discriminate.
  - intros H. apply Hun in H. discriminate H.
  - intros H. apply Hun in H. discriminate H.
Qed.

(** A process using 40 of 100 units of heap with one model loaded. *)
Lemma determineOverallStatus_cases_witness :
  HealthMonitor.determineOverallStatus None
    {| HealthMonitor.heapUsed := 40; HealthMonitor.heapTotal := 100 |} 1
  = HealthMonitor.healthy.
Proof.
  apply (proj1 (proj2 (determineOverallStatus_cases None
           {| HealthMonitor.heapUsed := 40; HealthMonitor.heapTotal := 100 |} 1
           ltac:(reflexivity)))).
  repeat split; [discriminate | discriminate].
Defined.

End LoggerAndHealth.

(** ** The Hugging Face downloader *)

Section DownloaderProbes.
Import HuggingFaceDownloader.

Lemma fetchAll_calls modelInfo fetch (files : list string) :
  forall (totalFiles completedFiles : nat) (d : gset string),
    let calls := fst (fetchAll modelInfo fetch files totalFiles completedFiles d) in
    calls = map (fun k => progressOf k totalFiles)
                (seq (S completedFiles) (length calls))
    /\ (length calls <= length files)%nat.
Proof.
  induction files as [|fileName rest IH]; intros totalFiles completedFiles d; simpl.
  - split; [reflexivity | lia].
  - destruct (fetch (huggingFaceId modelInfo) fileName
                (join (localPath modelInfo) fileName) d) as [[[] | t] d'].
    + specialize (IH totalFiles (S completedFiles) d').
      destruct (fetchAll modelInfo fetch rest totalFiles (S completedFiles) d')
        as [later d''].
      simpl in *. destruct IH as [Heq Hlen]. split; [| lia].
      f_equal. exact Heq.
    + specialize (IH totalFiles completedFiles d'). simpl in IH.
      destruct IH as [Heq Hlen]. split; [exact Heq | lia].
Qed.

Lemma fetchAll_served modelInfo fetch (served : string -> bool) :
  (forall repo path localFilePath d,
      (exists d', fetch repo path localFilePath d = (Return tt, d'))
      <-> served path = true) ->
  forall (files : list string) (totalFiles completedFiles : nat) (d : gset string),
    length (fst (fetchAll modelInfo fetch files totalFiles completedFiles d))
    = length (List.filter served files).
Proof.
  intros Hserved. induction files as [|fileName rest IH];
    intros totalFiles completedFiles d; simpl; [reflexivity |].
  destruct (fetch (huggingFaceId modelInfo) fileName
              (join (localPath modelInfo) fileName) d) as [[[] | t] d'] eqn:E.
  - rewrite (proj1 (Hserved _ _ _ _) (ex_intro _ d' E)).
    specialize (IH totalFiles (S completedFiles) d').
    destruct (fetchAll modelInfo fetch rest totalFiles (S completedFiles) d')
      as [later d''].
    simpl in *. f_equal. exact IH.
  - destruct (served fileName) eqn:Es.
    + apply (Hserved (huggingFaceId modelInfo) fileName
               (join (localPath modelInfo) fileName) d) in Es as [d0 Hd0].
      rewrite E in Hd0. discriminate Hd0.
    + apply IH.
Qed.

(** X9: [download] never throws.  Its i-th call of the progress callback
    reports i out of the number of required files, as a percentage, and
    there is one call per file fetched: when whether [downloadFile]
    succeeds depends on the file alone, the calls are exactly those for 1 up
    to the number of required files it succeeds for, a failed file being
    skipped without a call.  Unless the directory cannot be made, the answer
    is whether "config.json" exists under the local path afterwards,
    whatever happened to the other files. *)
Theorem download_reports_files_done (modelInfo : ModelInfo) (st : state) :
  fst (fst (download modelInfo st))
  = map (fun k => progressOf k (length (requiredFiles modelInfo)))
        (seq 1 (length (fst (fst (download modelInfo st)))))
  /\ (length (fst (fst (download modelInfo st))) <= length (requiredFiles modelInfo))%nat
  /\ (forall served : string -> bool,
        mkdirFault st = None ->
        (forall repo path localFilePath d,
            (exists d', downloadFile st repo path localFilePath d = (Return tt, d'))
            <-> served path = true) ->
        fst (fst (download modelInfo st))
        = map (fun k => progressOf k (length (requiredFiles modelInfo)))
              (seq 1 (length (List.filter served (requiredFiles modelInfo)))))
  /\ (mkdirFault st = None ->
      snd (fst (download modelInfo st))
      = Return (bool_decide (join (localPath modelInfo) "config.json"
                             ∈ disk (snd (download modelInfo st)))))
  /\ (mkdirFault st <> None -> download modelInfo st = ([], Return false, st)).
Proof.
  unfold download.
  destruct (mkdirFault st) as [t |] eqn:Em.
  - simpl. split; [reflexivity |]. split; [lia |].
    split; [discriminate |]. split; [discriminate | reflexivity].
  - pose proof (fetchAll_calls modelInfo (downloadFile st) (requiredFiles modelInfo)
                  (length (requiredFiles modelInfo)) 0 (disk st)) as H.
    pose proof (fun served Hs =>
                  fetchAll_served modelInfo (downloadFile st) served Hs
                    (requiredFiles modelInfo) (length (requiredFiles modelInfo)) 0
                    (disk st)) as Hcount.
    destruct (fetchAll modelInfo (downloadFile st) (requiredFiles modelInfo)
                (length (requiredFiles modelInfo)) 0 (disk st)) as [calls d].
    simpl in *. destruct H as [Heq Hlen].
    split; [exact Heq |]. split; [exact Hlen |]. split.
    + intros served _ Hs. rewrite <- (Hcount served Hs). exact Heq.
    + split; [| congruence]. intros _. rewrite orb_false_r. reflexivity.
Qed.

(** A network that has two of the four files of "gpt2-small": two calls,
    for 25 and 50 percent. *)
Lemma download_reports_files_done_witness :
  fst (fst (download Deployment.gpt2small Deployment.patchy))
  = map (fun k => progressOf k 4) (seq 1 2).
Proof.
  apply (proj1 (proj2 (proj2 (download_reports_files_done
                                Deployment.gpt2small Deployment.patchy)))
           (fun path => String.eqb path "config.json"
                        || String.eqb path "tokenizer.json")).
  - reflexivity.
  - intros repo path localFilePath d. simpl.
    destruct (String.eqb path "config.json" || String.eqb path "tokenizer.json").
    + split; [reflexivity | eexists; reflexivity].
    + split; [intros [d' H]; discriminate H | discriminate].
Defined.

Lemma filter_true_length (l : list bool) :
  (length (List.filter (fun b => b) l) <= length l)%nat
  /\ (length (List.filter (fun b => b) l) = length l
      <-> forallb (fun b => b) l = true).
Proof.
  induction l as [|[] l [IH1 IH2]]; simpl.
  - split; [lia | tauto].
  - split; [lia |]. rewrite <- IH2. split; lia.
  - split; [lia |]. split; [lia | discriminate].
Qed.

Lemma progressOf_100_iff (k n : nat) :
  (0 < n)%nat -> (progressOf k n == 100 <-> k = n).
Proof.
  intros Hn. unfold progressOf.
  assert (Hne : ~ inject_Z (Z.of_nat n) == 0).
  { replace 0%Q with (inject_Z 0) by reflexivity.
    rewrite inject_Z_injective. lia. }
  split.
  - intros H.
    assert (H1 : inject_Z (Z.of_nat k) / inject_Z (Z.of_nat n) == 1).
    { set (x := (inject_Z (Z.of_nat k) / inject_Z (Z.of_nat n))%Q) in *.
      clearbody x. lra. }
    assert (H2 : inject_Z (Z.of_nat k) / inject_Z (Z.of_nat n) * inject_Z (Z.of_nat n)
                 == inject_Z (Z.of_nat k)) by (field; exact Hne).
    rewrite H1, Qmult_1_l in H2.
    apply (proj1 (inject_Z_injective _ _)) in H2. lia.
  - intros ->. field. exact Hne.
Qed.

(** X10: the two probes agree.  With at least one required file,
    [getDownloadProgress] is a percentage between 0 and 100 that equals 100
    exactly when [isModelDownloaded] is true; with no required file the
    model counts as downloaded while the progress is NaN. *)
Theorem getDownloadProgress_100_iff_downloaded (modelInfo : ModelInfo) (st : state) :
  match requiredFiles modelInfo with
  | [] => getDownloadProgress modelInfo st = NaN
          /\ isModelDownloaded modelInfo st = true
  | _ :: _ =>
      exists p, getDownloadProgress modelInfo st = Finite p
                /\ within 0 100 p
                /\ (p == 100 <-> isModelDownloaded modelInfo st = true)
  end.
Proof.
  unfold getDownloadProgress, isModelDownloaded.
  assert (Hlen : length (fileChecks modelInfo st) = length (requiredFiles modelInfo))
    by (unfold fileChecks; apply length_map).
  revert Hlen. generalize (fileChecks modelInfo st) as checks. intros checks Hlen.
  pose proof (filter_true_length checks) as [Hle Hiff].
  destruct (requiredFiles modelInfo) as [|f files] eqn:Ef.
  - split; [reflexivity |]. destruct checks; [reflexivity | discriminate Hlen].
  - cbv iota beta. rewrite <- Hlen.
    assert (Hpos : (0 < length checks)%nat) by (rewrite Hlen; simpl; lia).
    eexists. split; [reflexivity |]. split.
    + apply progressOf_within; [exact Hle | exact Hpos].
    + rewrite progressOf_100_iff by exact Hpos. exact Hiff.
Qed.

Lemma fetchAll_all_arrive modelInfo fetch :
  (forall repo path localFilePath d,
      exists d', fetch repo path localFilePath d = (Return tt, d')
                 /\ localFilePath ∈ d' /\ d ⊆ d') ->
  forall (files : list string) (totalFiles completedFiles : nat) (d : gset string),
    length (fst (fetchAll modelInfo fetch files totalFiles completedFiles d))
    = length files
    /\ d ⊆ snd (fetchAll modelInfo fetch files totalFiles completedFiles d)
    /\ (forall f, In f files ->
          join (localPath modelInfo) f
          ∈ snd (fetchAll modelInfo fetch files totalFiles completedFiles d)).
Proof.
  intros Hnet. induction files as [|fileName rest IH];
    intros totalFiles completedFiles d; simpl.
  - repeat split; [set_solver | intros f []].
  - destruct (Hnet (huggingFaceId modelInfo) fileName
                (join (localPath modelInfo) fileName) d) as (d' & -> & Hin & Hsub).
    specialize (IH totalFiles (S completedFiles) d').
    destruct (fetchAll modelInfo fetch rest totalFiles (S completedFiles) d')
      as [later d''].
    simpl in *. destruct IH as (Hlen & Hsub' & Hall).
    split; [lia |]. split; [set_solver |].
    intros f [<- | Hf]; [set_solver | apply Hall, Hf].
Qed.

(** X11: when the directory can be made and every [downloadFile] call
    succeeds, leaves the file at its local path and removes nothing, then
    after [download] every fraction from 1 to the number of files was
    reported, [isModelDownloaded] is true, and the answer is true if
    "config.json" is among the required files. *)
Theorem download_complete_when_every_file_arrives (modelInfo : ModelInfo) (st : state) :
  mkdirFault st = None ->
  (forall repo path localFilePath d,
      exists d', downloadFile st repo path localFilePath d = (Return tt, d')
                 /\ localFilePath ∈ d' /\ d ⊆ d') ->
  fst (fst (download modelInfo st))
  = map (fun k => progressOf k (length (requiredFiles modelInfo)))
        (seq 1 (length (requiredFiles modelInfo)))
  /\ isModelDownloaded modelInfo (snd (download modelInfo st)) = true
  /\ (In "config.json" (requiredFiles modelInfo) ->
      snd (fst (download modelInfo st)) = Return true).
Proof.
  intros Hm Hnet. unfold download. rewrite Hm.
  pose proof (fetchAll_calls modelInfo (downloadFile st) (requiredFiles modelInfo)
                (length (requiredFiles modelInfo)) 0 (disk st)) as [Hcalls _].
  pose proof (fetchAll_all_arrive modelInfo (downloadFile st) Hnet
                (requiredFiles modelInfo) (length (requiredFiles modelInfo)) 0 (disk st))
    as (Hlen & _ & Hall).
  destruct (fetchAll modelInfo (downloadFile st) (requiredFiles modelInfo)
              (length (requiredFiles modelInfo)) 0 (disk st)) as [calls d].
  simpl in *. rewrite Hlen in Hcalls. split; [exact Hcalls |]. split.
  - unfold isModelDownloaded, fileChecks. simpl.
    rewrite forallb_forall. intros b Hb. apply List.in_map_iff in Hb as (f & <- & Hf).
    apply bool_decide_eq_true. apply Hall, Hf.
  - intros Hc. rewrite orb_false_r. f_equal. apply bool_decide_eq_true. apply Hall, Hc.
Qed.

(** The deployment's downloader fetching "gpt2-small". *)
Lemma download_complete_when_every_file_arrives_witness :
  isModelDownloaded Deployment.gpt2small
    (snd (download Deployment.gpt2small Deployment.mirror)) = true.
Proof.
  apply (download_complete_when_every_file_arrives Deployment.gpt2small Deployment.mirror).
  - reflexivity.
  - intros repo path localFilePath d. eexists. split; [reflexivity |].
    split; set_solver.
Defined.

End DownloaderProbes.

(** ** The Transformers loader *)

Section LoaderFacts.
Import TransformersLoader.

Lemma has_delete_same {V : Type} (k : string) (m : list (string * V)) :
  NoDup (JsMap.keys m) -> JsMap.has k (JsMap.delete k m) = false.
Proof. intros H. unfold JsMap.has. rewrite get_delete_same by exact H. reflexivity. Qed.

Lemma has_delete_other {V : Type} (k k' : string) (m : list (string * V)) :
  k <> k' -> JsMap.has k (JsMap.delete k' m) = JsMap.has k m.
Proof. intros H. unfold JsMap.has. rewrite get_delete_other by exact H. reflexivity. Qed.

(** X12: [unloadModel] always answers true; provided the keys of the map are
    distinct, as they are in a [Map], the model is not loaded afterwards,
    every other model is loaded exactly if it was, and the keys stay
    distinct. *)
Theorem unloadModel_forgets (modelName : string) (st : state) :
  NoDup (getLoadedModels st) ->
  fst (unloadModel modelName st) = Return true
  /\ isModelLoaded modelName (snd (unloadModel modelName st)) = false
  /\ (forall other, other <> modelName ->
        isModelLoaded other (snd (unloadModel modelName st)) = isModelLoaded other st)
  /\ NoDup (getLoadedModels (snd (unloadModel modelName st))).
Proof.
  intros Hnd. unfold unloadModel, isModelLoaded, getLoadedModels in *. simpl.
  destruct (JsMap.has modelName (loadedModels st)) eqn:Hhas; simpl.
  - split; [reflexivity |]. split; [apply has_delete_same, Hnd |].
    split; [intros other Hne; apply has_delete_other, Hne |].
    apply NoDup_keys_delete, Hnd.
  - repeat split; assumption.
Qed.

(** Unloading "gpt2-small" where both models are loaded. *)
Lemma unloadModel_forgets_witness :
  isModelLoaded "gpt2-small"
    (snd (unloadModel "gpt2-small" (loader Deployment.loadedTwice))) = false.
Proof.
  apply (unloadModel_forgets "gpt2-small" (loader Deployment.loadedTwice)).
  vm_compute. repeat constructor; intros H; inversion H; subst;
    repeat match goal with H : _ ∈ _ |- _ => inversion H; subst; clear H end.
Defined.

(** X13: [loadModel] never throws.  When the pipeline factory throws, it
    answers false and changes nothing; otherwise it answers true, the model
    is loaded, a model loaded before keeps its place in the list of loaded
    models and a new one goes to its end; distinct keys stay distinct. *)
Theorem loadModel_outcome (model : Model) (st : state) :
  match pipeline st (modelType (info model)) (huggingFaceId (info model))
                 (localPath (info model)) with
  | Throw _ => loadModel model st = (Return false, st)
  | Return _ =>
      fst (loadModel model st) = Return true
      /\ isModelLoaded (name (info model)) (snd (loadModel model st)) = true
      /\ getLoadedModels (snd (loadModel model st))
         = (if isModelLoaded (name (info model)) st
            then getLoadedModels st
            else getLoadedModels st ++ [name (info model)])
      /\ (forall other, isModelLoaded other st = true ->
                        isModelLoaded other (snd (loadModel model st)) = true)
  end
  /\ (NoDup (getLoadedModels st) -> NoDup (getLoadedModels (snd (loadModel model st)))).
Proof.
  unfold loadModel, isModelLoaded, getLoadedModels.
  destruct (pipeline st _ _ _) as [pipe | t]; simpl.
  - split; [| apply NoDup_keys_set].
    split; [reflexivity |]. split; [apply has_set_same |].
    split; [apply keys_set |]. intros other. apply has_set_preserved.
  - split; [reflexivity | tauto].
Qed.

Lemma splitCount_positive (s : string) : (1 <= splitCount s)%nat.
Proof. induction s as [|c s IH]; simpl; [lia |]. destruct (Ascii.eqb c " "); lia. Qed.

(** X14: [generate] leaves the loaded models as they are.  It throws "No
    model loaded" exactly when no model is loaded; any other fault it throws
    is an [Error] whose message starts with "Generation failed: "; and a
    response counts at least one token and takes its processing time from
    the two clock readings. *)
Theorem generate_outcomes (request : GenerationRequest) (clock : GenClock) (st : state) :
  snd (generate request clock st) = st
  /\ (fst (generate request clock st) = Throw (ThrowError "No model loaded")
      <-> getLoadedModels st = [])
  /\ (forall t, fst (generate request clock st) = Throw t ->
        t = ThrowError "No model loaded"
        \/ exists m, t = ThrowError ("Generation failed: " ++ m)%string)
  /\ (forall response, fst (generate request clock st) = Return response ->
        (1 <= GenerationResponse.tokensUsed response)%nat
        /\ GenerationResponse.processingTimeMs response
           = (endTime clock - startTime clock)%Z).
Proof.
  unfold generate, getLoadedModels, JsMap.keys.
  destruct (loadedModels st) as [|[modelName pipe] rest]; simpl.
  - split; [reflexivity |]. split; [tauto |]. split.
    + intros t H. injection H as <-. left. reflexivity.
    + intros response H. discriminate H.
  - destruct (run pipe (prompt request) (optionsOf request)) as [result | t0]; simpl.
    + split; [reflexivity |]. split; [split; discriminate |]. split.
      * intros t H. discriminate H.
      * intros response H. injection H as <-. simpl.
        split; [apply splitCount_positive | reflexivity].
    + split; [reflexivity |]. split; [split; discriminate |]. split.
      * intros t H. injection H as <-. right. eexists. reflexivity.
      * intros response H. discriminate H.
Qed.

End LoaderFacts.

(** ** The file repository *)

Section RepositoryFacts.
Import FileModelRepository.



(** X15: the first [getModel] of a catalog model.  When the document has no
    entry for the name, the name is not a member of [Object.prototype], the
    catalog knows it, under that very name as [addCustomModel] and the
    constructor file it, with a well-formed descriptor, and the document can
    be written, [getModel] returns a fresh NotDownloaded record of the
    catalog descriptor and stores it under the name, touching no other
    entry; reading that name again returns the same record and writes
    nothing. *)
Theorem getModel_materialises_catalog_entry
    (modelName : string) (now : Date) (st : state)
    (entry : ModelRegistry.ModelRegistryEntry) :
  loadRegistry st !! modelName = None ->
  inherited modelName = false ->
  ModelRegistry.getModel modelName (knownModels st) = Some entry ->
  name (ModelRegistry.info entry) = modelName ->
  writeFault st = None ->
  wellFormed (ModelRegistry.info entry) ->
  exists st',
    getModel modelName now st
    = (Return (Some (newModel (ModelRegistry.info entry))), st')
    /\ loadRegistry st' !! name (ModelRegistry.info entry)
       = Some (toJSON (newModel (ModelRegistry.info entry)))
    /\ (forall other, other <> name (ModelRegistry.info entry) ->
          loadRegistry st' !! other = loadRegistry st !! other)
    /\ (forall now',
          getModel (name (ModelRegistry.info entry)) now' st'
          = (Return (Some (newModel (ModelRegistry.info entry))), st')).
Proof.
  intros Hdoc Hown Hcat Hname Hw Hwf.
  unfold getModel at 1. rewrite Hdoc, Hown. unfold getKnownModel. rewrite Hcat.
  unfold saveModel, saveRegistry. rewrite Hw. eexists. split; [reflexivity |].
  cbn [loadRegistry registryFile]. change (info (newModel ?i)) with i.
  split; [apply lookup_insert_eq |].
  split; [intros other Hne; apply lookup_insert_ne; congruence |].
  intros now'. unfold getModel, loadRegistry at 1. cbn [registryFile].
  rewrite lookup_insert_eq. change (d_info (toJSON (newModel ?i))) with i.
  rewrite (build_from_descriptor _ Hwf). reflexivity.
Qed.

(** The first read of "gpt2-small" in the deployment. *)
Lemma getModel_materialises_catalog_entry_witness :
  exists st',
    getModel "gpt2-small" 7%Z Deployment.emptyStore
    = (Return (Some (newModel Deployment.gpt2small)), st')
    /\ loadRegistry st' !! "gpt2-small" = Some (toJSON (newModel Deployment.gpt2small))
    /\ (forall other, other <> "gpt2-small" ->
          loadRegistry st' !! other = loadRegistry Deployment.emptyStore !! other)
    /\ (forall now',
          getModel "gpt2-small" now' st'
          = (Return (Some (newModel Deployment.gpt2small)), st')).
Proof.
  apply (getModel_materialises_catalog_entry "gpt2-small" 7%Z Deployment.emptyStore
           {| ModelRegistry.info := Deployment.gpt2small;
              ModelRegistry.tags := ["text-generation"; "fast"; "lightweight"];
              ModelRegistry.popularity := 95;
              ModelRegistry.verified := true |}).
  - reflexivity.
  - reflexivity.
  - vm_compute. reflexivity.
  - reflexivity.
  - reflexivity.
  - repeat split; discriminate.
Defined.


(** X17: what [getModel] restores from a document entry with a well-formed
    descriptor, without writing anything: the descriptor; the state, with
    Downloading and Loading read as NotDownloaded; for a Loaded entry the
    time of the read as activation time, the stored timestamp being ignored;
    for an Error entry its message, or "Unknown error" when the message is
    missing or empty. *)
Theorem getModel_restores (modelName : string) (now : Date) (st : state)
    (modelData : ModelData) :
  loadRegistry st !! modelName = Some modelData ->
  wellFormed (d_info modelData) ->
  exists model,
    getModel modelName now st = (Return (Some model), st)
    /\ info model = d_info modelData
    /\ status model = readBack (d_status modelData)
    /\ loadedAt model = (if ModelStatus_eqb (d_status modelData) LOADED
                         then Some now else None)
    /\ errorMessage model
       = (if ModelStatus_eqb (d_status modelData) ERROR
          then Some (if truthy (d_errorMessage modelData)
                     then default "" (d_errorMessage modelData)
                     else "Unknown error")
          else None).
Proof.
  intros Hdoc Hwf. unfold getModel. rewrite Hdoc.
  rewrite (build_from_descriptor _ Hwf). eexists. split; [reflexivity |].
  unfold restoreStatus. destruct (d_status modelData); repeat split.
Qed.

(** An entry stored as loaded at time 7 and read at time 9. *)
Lemma getModel_restores_witness :
  exists model,
    getModel "gpt2-small" 9%Z (repository Deployment.loadedOnce)
    = (Return (Some model), repository Deployment.loadedOnce)
    /\ info model = Deployment.gpt2small
    /\ status model = LOADED
    /\ loadedAt model = Some 9%Z
    /\ errorMessage model = None.
Proof.
  apply (getModel_restores "gpt2-small" 9%Z (repository Deployment.loadedOnce)
           (toJSON (markLoaded 7%Z (newModel Deployment.gpt2small)))).
  - vm_compute. reflexivity.
  - repeat split; discriminate.
Defined.


End RepositoryFacts.

(** ** The service: faults, unknown names and records in other states *)

Lemma collaboratorCalls_app (l1 l2 : list Event) :
  collaboratorCalls (l1 ++ l2) = collaboratorCalls l1 ++ collaboratorCalls l2.
Proof. apply List.filter_app. Qed.

Lemma collaboratorCalls_progress (f : Q -> Q) (stage : string) (l : list Q) :
  collaboratorCalls (map (fun p => Progress (f p) stage) l) = [].
Proof. induction l; simpl; auto. Qed.

Ltac calls_norm :=
  repeat (progress (cbn [app collaboratorCalls List.filter isProgress negb];
                    rewrite ?collaboratorCalls_app, ?collaboratorCalls_progress,
                      ?app_nil_l, ?app_nil_r)).

Section ServiceFaults.
Context {R D L : Type}.
Context `{!ModelRepository R, !ModelDownloader D, !ModelLoader L}.

(** X19: [setupModel] never rejects.  Whatever a collaborator throws, the
    call resolves; a failure always carries an error message and a success
    names the model; and a fault of [getModel] is answered with the fault's
    message, or "Unknown error" when what was thrown is not an [Error]. *)
Theorem setupModel_never_throws
    (s : ModelService R D L) (modelName : string) (onProgress : bool) (now : Date) :
  exists result,
    fst (setupModel modelName onProgress now s) = Return result
    /\ (SetupModelResult.success result = false ->
        is_Some (SetupModelResult.error result))
    /\ (SetupModelResult.success result = true ->
        SetupModelResult.model result = Some modelName
        /\ SetupModelResult.error result = None)
    /\ (forall t repository',
          getModel modelName now (repository s) = (Throw t, repository') ->
          result = failed (message_or "Unknown error" t)).
Proof.
  unfold_service. split_run; cbn in *.
  all: eexists; (split; [reflexivity |]).
  all: cbn; (split; [intros Hs; first [discriminate Hs | eexists; reflexivity] |]).
  all: (split; [intros Hs; first [discriminate Hs | split; reflexivity] |]).
  all: let tx := fresh "tx" in let rx := fresh "rx" in let Ht := fresh "Ht" in
       intros tx rx Ht; first [discriminate Ht | inversion Ht; reflexivity].
Qed.

(** X20: a name the repository does not know.  [setupModel] answers the
    failure "Model <name> not found in registry"; besides the read of the
    repository nothing is called, and the active model stays. *)
Theorem setupModel_unknown_model
    (s : ModelService R D L) (modelName : string) (onProgress : bool) (now : Date)
    (repository' : R) :
  getModel modelName now (repository s) = (Return None, repository') ->
  setupModel modelName onProgress now s
  = (Return (failed ("Model " ++ modelName ++ " not found in registry")%string),
     {| repository := repository'; downloader := downloader s; loader := loader s;
        currentModel := currentModel s;
        trace := trace s
                 ++ (if onProgress then [Progress 0 "Initializing..."] else [])
                 ++ [RepositoryGetModel modelName] |}).
Proof.
  intros Hget. unfold_service.
  destruct onProgress; cbn; rewrite Hget; cbn; rewrite <- ?app_assoc; reflexivity.
Qed.

(** X21: a record that is neither NotDownloaded nor Downloaded, and not both
    Loaded and held by the Activator: Downloading, Loading, Error, or Loaded
    while the Activator does not hold the model.  [setupModel] answers
    success with the record's state as it is, calls nothing beyond the read
    of the repository and, for a Loaded record, the question to the
    Activator, and leaves the active model, the downloader and the loader
    as they were. *)
Theorem setupModel_other_states
    (s : ModelService R D L) (modelName : string) (onProgress : bool) (now : Date)
    (model : Model) (repository' : R) :
  getModel modelName now (repository s) = (Return (Some model), repository') ->
  status model <> NOT_DOWNLOADED ->
  status model <> DOWNLOADED ->
  alreadyLoaded s modelName now = false ->
  exists events,
    setupModel modelName onProgress now s
    = (Return {| SetupModelResult.success := true;
                 SetupModelResult.model := Some modelName;
                 SetupModelResult.status := Some (status model);
                 SetupModelResult.error := None |},
       {| repository := repository'; downloader := downloader s; loader := loader s;
          currentModel := currentModel s; trace := trace s ++ events |})
    /\ collaboratorCalls events
       = RepositoryGetModel modelName
         :: (if isReady model then [LoaderIsModelLoaded modelName] else []).
Proof.
  intros Hget Hnd Hd Hal. unfold alreadyLoaded in Hal. rewrite Hget in Hal.
  destruct model as [i st e t]. unfold status in *. cbn in Hnd, Hd.
  unfold_service.
  destruct onProgress, st; try congruence; cbn in *; rewrite Hget; cbn;
    rewrite ?Hal; cbn; rewrite <- ?app_assoc;
    (eexists; split; [reflexivity | reflexivity]).
Qed.

End ServiceFaults.

(** A second [setupModel] after the download failed. *)
Lemma setupModel_other_states_witness :
  exists events,
    setupModel "gpt2-small" true 9%Z Deployment.failedOnce
    = (Return {| SetupModelResult.success := true;
                 SetupModelResult.model := Some "gpt2-small";
                 SetupModelResult.status :=
                   Some (status (markError "Download failed"
                                   (newModel Deployment.gpt2small)));
                 SetupModelResult.error := None |},
       {| repository := repository Deployment.failedOnce;
          downloader := downloader Deployment.failedOnce;
          loader := loader Deployment.failedOnce;
          currentModel := currentModel Deployment.failedOnce;
          trace := trace Deployment.failedOnce ++ events |})
    /\ collaboratorCalls events
       = RepositoryGetModel "gpt2-small"
         :: (if isReady (markError "Download failed" (newModel Deployment.gpt2small))
             then [LoaderIsModelLoaded "gpt2-small"] else []).
Proof.
  apply (setupModel_other_states Deployment.failedOnce "gpt2-small" true 9%Z
           (markError "Download failed" (newModel Deployment.gpt2small))
           (repository Deployment.failedOnce)).
  - vm_compute. reflexivity.
  - discriminate.
  - discriminate.
  - vm_compute. reflexivity.
Defined.

(** An unknown name in the deployment. *)
Lemma setupModel_unknown_model_witness :
  setupModel "no-such-model" false 7%Z Deployment.fresh
  = (Return (failed "Model no-such-model not found in registry"),
     {| repository := repository Deployment.fresh;
        downloader := downloader Deployment.fresh;
        loader := loader Deployment.fresh;
        currentModel := currentModel Deployment.fresh;
        trace := trace Deployment.fresh ++ [] ++ [RepositoryGetModel "no-such-model"] |}).
Proof.
  apply (setupModel_unknown_model Deployment.fresh "no-such-model" false 7%Z
           (repository Deployment.fresh)).
  vm_compute. reflexivity.
Defined.

(** ** The service: the lifecycle it drives *)

Section ServiceLifecycle.
Context {R D L : Type}.
Context `{!ModelRepository R, !ModelDownloader D, !ModelLoader L}.

(** X22: every transition is persisted, in order.  When [setupModel]
    succeeds on a NotDownloaded record, its calls of the collaborators are
    exactly: read the record, save it as Downloading, download, save it as
    Downloaded, save it as Loading, load, save it as Loaded; on a Downloaded
    record the first three steps after the read are left out.  In both cases
    the record saved last is the active model, and it is in state Loaded. *)
Theorem setupModel_persists_every_transition
    (s : ModelService R D L) (modelName : string) (onProgress : bool) (now : Date)
    (model : Model) (repository' : R) (result : SetupModelResult.t) :
  getModel modelName now (repository s) = (Return (Some model), repository') ->
  fst (setupModel modelName onProgress now s) = Return result ->
  SetupModelResult.success result = true ->
  exists events,
    trace (snd (setupModel modelName onProgress now s)) = trace s ++ events
    /\ (status model = NOT_DOWNLOADED ->
        collaboratorCalls events
        = [RepositoryGetModel modelName;
           RepositorySaveModel (markDownloading model);
           DownloaderDownload (info model);
           RepositorySaveModel (markDownloaded (markDownloading model));
           RepositorySaveModel (markLoading (markDownloaded (markDownloading model)));
           LoaderLoadModel (markLoading (markDownloaded (markDownloading model)));
           RepositorySaveModel
             (markLoaded now (markLoading (markDownloaded (markDownloading model))))]
        /\ currentModel (snd (setupModel modelName onProgress now s))
           = Some (markLoaded now (markLoading (markDownloaded (markDownloading model))))
        /\ SetupModelResult.status result = Some LOADED)
    /\ (status model = DOWNLOADED ->
        collaboratorCalls events
        = [RepositoryGetModel modelName;
           RepositorySaveModel (markLoading model);
           LoaderLoadModel (markLoading model);
           RepositorySaveModel (markLoaded now (markLoading model))]
        /\ currentModel (snd (setupModel modelName onProgress now s))
           = Some (markLoaded now (markLoading model))
        /\ SetupModelResult.status result = Some LOADED).
Proof.
  intros Hget Hres Hsucc. revert Hres.
  destruct model as [i st e t]. unfold status. cbn [_status].
  unfold_service.
  destruct st; split_run; cbn in *.
  all: intros Hres; try discriminate Hget; inversion Hget; subst; clear Hget.
  all: unfold isReady, status in *; cbn in *; try discriminate.
  all: injection Hres as <-; try discriminate Hsucc.
  all: eexists; (split; [rewrite <- ?app_assoc; reflexivity |]).
  all: split; intros Hst; try discriminate Hst.
  all: calls_norm; repeat split.
Qed.

(** X23: the active record is always Loaded.  If the service holds no active
    record, or one in state Loaded, the same is true after [setupModel],
    after [generateText] and after [unloadCurrentModel]. *)
Theorem active_record_stays_Loaded (s : ModelService R D L) :
  (forall current, currentModel s = Some current -> status current = LOADED) ->
  (forall modelName onProgress now current,
      currentModel (snd (setupModel modelName onProgress now s)) = Some current ->
      status current = LOADED)
  /\ (forall request clock current,
        currentModel (snd (generateText request clock s)) = Some current ->
        status current = LOADED)
  /\ (forall current,
        currentModel (snd (unloadCurrentModel s)) = Some current ->
        status current = LOADED).
Proof.
  intros Hinv. split; [| split].
  - intros modelName onProgress now current. unfold_service.
    split_run; cbn in *; intros Hc; try (apply Hinv; exact Hc).
    all: injection Hc as <-; try reflexivity.
    all: apply isReady_true_iff; assumption.
  - intros request clock current. unfold_service.
    split_run; cbn in *; intros Hc; apply Hinv; exact Hc.
  - intros current. unfold_service.
    split_run; cbn in *; intros Hc; try discriminate Hc; apply Hinv; congruence.
Qed.

End ServiceLifecycle.

(** The first [setupModel("gpt2-small")] of the deployment. *)
Lemma setupModel_persists_every_transition_witness :
  exists events,
    trace (snd (setupModel "gpt2-small" false 7%Z Deployment.fresh))
    = trace Deployment.fresh ++ events
    /\ (status (newModel Deployment.gpt2small) = NOT_DOWNLOADED ->
        collaboratorCalls events
        = [RepositoryGetModel "gpt2-small";
           RepositorySaveModel (markDownloading (newModel Deployment.gpt2small));
           DownloaderDownload (info (newModel Deployment.gpt2small));
           RepositorySaveModel
             (markDownloaded (markDownloading (newModel Deployment.gpt2small)));
           RepositorySaveModel
             (markLoading (markDownloaded (markDownloading
                (newModel Deployment.gpt2small))));
           LoaderLoadModel
             (markLoading (markDownloaded (markDownloading
                (newModel Deployment.gpt2small))));
           RepositorySaveModel
             (markLoaded 7%Z (markLoading (markDownloaded (markDownloading
                (newModel Deployment.gpt2small)))))]
        /\ currentModel (snd (setupModel "gpt2-small" false 7%Z Deployment.fresh))
           = Some (markLoaded 7%Z (markLoading (markDownloaded (markDownloading
                     (newModel Deployment.gpt2small)))))
        /\ SetupModelResult.status
             (succeeded "gpt2-small"
                (markLoaded 7%Z (newModel Deployment.gpt2small))) = Some LOADED)
    /\ (status (newModel Deployment.gpt2small) = DOWNLOADED ->
        collaboratorCalls events
        = [RepositoryGetModel "gpt2-small";
           RepositorySaveModel (markLoading (newModel Deployment.gpt2small));
           LoaderLoadModel (markLoading (newModel Deployment.gpt2small));
           RepositorySaveModel
             (markLoaded 7%Z (markLoading (newModel Deployment.gpt2small)))]
        /\ currentModel (snd (setupModel "gpt2-small" false 7%Z Deployment.fresh))
           = Some (markLoaded 7%Z (markLoading (newModel Deployment.gpt2small)))
        /\ SetupModelResult.status
             (succeeded "gpt2-small"
                (markLoaded 7%Z (newModel Deployment.gpt2small))) = Some LOADED).
Proof.
  apply (setupModel_persists_every_transition Deployment.fresh "gpt2-small" false 7%Z
           (newModel Deployment.gpt2small)
           (snd (getModel "gpt2-small" 7%Z (repository Deployment.fresh)))
           (succeeded "gpt2-small" (markLoaded 7%Z (newModel Deployment.gpt2small)))).
  - vm_compute. reflexivity.
  - vm_compute. reflexivity.
  - reflexivity.
Defined.

(** The active record after the first setup of the deployment. *)
Lemma active_record_stays_Loaded_witness :
  status (markLoaded 7%Z (markLoading (markDownloaded (markDownloading
            (newModel Deployment.gpt2small))))) = LOADED.
Proof.
  apply (proj1 (active_record_stays_Loaded Deployment.fresh
                  ltac:(intros current H; discriminate H))
           "gpt2-small" false 7%Z).
  vm_compute. reflexivity.
Defined.

(** ** The service with the Transformers loader *)

Section ServiceWithLoader.
Context {R D : Type}.
Context `{!ModelRepository R, !ModelDownloader D}.

#[local] Arguments JsMap.has : simpl never.
#[local] Arguments JsMap.set : simpl never.
#[local] Arguments JsMap.delete : simpl never.

(** X24: [unloadCurrentModel] with an active model and a loader whose keys
    are distinct.  It answers true, the loader does not hold the model any
    more, [getModelStatus] reports no model, and a [generateText] that
    follows answers "No model loaded" without reaching the loader. *)
Theorem unloadCurrentModel_releases
    (s : ModelService R D TransformersLoader.state) (current : Model) :
  currentModel s = Some current ->
  NoDup (getLoadedModels (loader s)) ->
  fst (unloadCurrentModel s) = Return true
  /\ isModelLoaded (name (info current)) (loader (snd (unloadCurrentModel s))) = false
  /\ getModelStatus (snd (unloadCurrentModel s))
     = {| StatusReport.model := None; StatusReport.status := None;
          StatusReport.ready := false |}
  /\ (forall request clock,
        generateText request clock (snd (unloadCurrentModel s))
        = (Return {| GenerationResult.success := false;
                     GenerationResult.response := None;
                     GenerationResult.error := Some "No model loaded" |},
           snd (unloadCurrentModel s))).
Proof.
  intros Hcur Hnd.
  unfold unloadCurrentModel. rewrite Hcur. unfold_service. cbn.
  unfold TransformersLoader.unloadModel, TransformersLoader.isModelLoaded. cbn.
  split; [reflexivity |]. split; [| split; reflexivity].
  destruct (JsMap.has (name (info current))
              (TransformersLoader.loadedModels (loader s))) eqn:Hhas; cbn.
  - apply has_delete_same. exact Hnd.
  - exact Hhas.
Qed.

(** A record that [setupModel] loaded is the active one and its model is held
    by the loader. *)
Lemma setupModel_loads
    (s : ModelService R D TransformersLoader.state)
    (modelName : string) (onProgress : bool) (now : Date)
    (model : Model) (repository' : R) (result : SetupModelResult.t) :
  getModel modelName now (repository s) = (Return (Some model), repository') ->
  status model = NOT_DOWNLOADED \/ status model = DOWNLOADED ->
  fst (setupModel modelName onProgress now s) = Return result ->
  SetupModelResult.success result = true ->
  exists current,
    currentModel (snd (setupModel modelName onProgress now s)) = Some current
    /\ status current = LOADED
    /\ info current = info model
    /\ isModelLoaded (name (info model))
         (loader (snd (setupModel modelName onProgress now s))) = true.
Proof.
  intros Hget Hst Hres Hsucc. revert Hres. unfold_service.
  split_run; cbn in *.
  all: intros Hres; try discriminate Hget; inversion Hget; subst; clear Hget.
  all: injection Hres as <-; try discriminate Hsucc.
  all: destruct model as [i st e t]; unfold isReady, status in *; cbn in *.
  all: destruct Hst as [Hst | Hst]; subst st; cbn in *; try discriminate.
  all: eexists; (split; [reflexivity |]); (split; [reflexivity |]);
       (split; [reflexivity |]).
  all: match goal with
       | H : TransformersLoader.loadModel ?m ?st = (Return ?b, ?st') |- _ =>
           destruct b; try discriminate; exact (loadModel_loads _ _ _ H)
       end.
Qed.

(** X25: after a [setupModel] that succeeded on a NotDownloaded or Downloaded
    record, [generateText] reaches the pipeline: it answers a response, or a
    failure whose message starts with "Generation failed: "; it does not
    answer "No model loaded". *)
Theorem generateText_after_setupModel
    (s : ModelService R D TransformersLoader.state)
    (modelName : string) (onProgress : bool) (now : Date)
    (model : Model) (repository' : R) (result : SetupModelResult.t)
    (request : GenerationRequest) (clock : GenClock) :
  getModel modelName now (repository s) = (Return (Some model), repository') ->
  status model = NOT_DOWNLOADED \/ status model = DOWNLOADED ->
  fst (setupModel modelName onProgress now s) = Return result ->
  SetupModelResult.success result = true ->
  (exists response,
      fst (generateText request clock (snd (setupModel modelName onProgress now s)))
      = Return {| GenerationResult.success := true;
                  GenerationResult.response := Some response;
                  GenerationResult.error := None |})
  \/ (exists message,
        fst (generateText request clock (snd (setupModel modelName onProgress now s)))
        = Return {| GenerationResult.success := false;
                    GenerationResult.response := None;
                    GenerationResult.error :=
                      Some ("Generation failed: " ++ message)%string |}).
Proof.
  intros Hget Hst Hres Hsucc.
  destruct (setupModel_loads s modelName onProgress now model repository' result
              Hget Hst Hres Hsucc) as (current & Hcur & Hloaded & _ & Hheld).
  generalize dependent (snd (setupModel modelName onProgress now s)).
  intros s' Hcur Hheld.
  destruct current as [i st e t]. unfold status in Hloaded. cbn in Hloaded. subst st.
  unfold generateText. rewrite Hcur. cbn. unfold_service. cbn.
  unfold TransformersLoader.generate.
  cbn in Hheld. unfold TransformersLoader.isModelLoaded, JsMap.has in Hheld.
  destruct (TransformersLoader.loadedModels (loader s')) as [|[first pipe] rest];
    [cbn in Hheld; discriminate Hheld |].
  destruct (TransformersLoader.run pipe (prompt request)
              (TransformersLoader.optionsOf request)) as [answer | t0]; cbn.
  - left. eexists. reflexivity.
  - right. eexists. reflexivity.
Qed.

End ServiceWithLoader.

(** Unloading the active model where both models are loaded. *)
Lemma unloadCurrentModel_releases_witness :
  fst (unloadCurrentModel Deployment.loadedTwice) = Return true
  /\ isModelLoaded "distilgpt2" (loader (snd (unloadCurrentModel Deployment.loadedTwice)))
     = false.
Proof.
  destruct (unloadCurrentModel_releases Deployment.loadedTwice
              (markLoaded 9%Z (newModel Deployment.distilgpt2)))
    as (Hanswer & Hgone & _).
  - vm_compute. reflexivity.
  - vm_compute. repeat constructor; intros H; inversion H; subst;
      repeat match goal with H : _ ∈ _ |- _ => inversion H; subst; clear H end.
  - split; [exact Hanswer | exact Hgone].
Defined.

(** Generating after the first setup of the deployment. *)
Lemma generateText_after_setupModel_witness :
  (exists response,
      fst (generateText Deployment.hello Deployment.noon
             (snd (setupModel "gpt2-small" true 7%Z Deployment.fresh)))
      = Return {| GenerationResult.success := true;
                  GenerationResult.response := Some response;
                  GenerationResult.error := None |})
  \/ (exists message,
        fst (generateText Deployment.hello Deployment.noon
               (snd (setupModel "gpt2-small" true 7%Z Deployment.fresh)))
        = Return {| GenerationResult.success := false;
                    GenerationResult.response := None;
                    GenerationResult.error :=
                      Some ("Generation failed: " ++ message)%string |}).
Proof.
  apply (generateText_after_setupModel Deployment.fresh "gpt2-small" true 7%Z
           (newModel Deployment.gpt2small)
           (snd (getModel "gpt2-small" 7%Z (repository Deployment.fresh)))
           (succeeded "gpt2-small" (markLoaded 7%Z (newModel Deployment.gpt2small)))).
  - vm_compute. reflexivity.
  - left. reflexivity.
  - vm_compute. reflexivity.
  - reflexivity.
Defined.

(** ** The service with the file repository *)

Section ServiceWithFileRepository.
Context {D L : Type}.
Context `{!ModelDownloader D, !ModelLoader L}.

#[local] Arguments FileModelRepository.getModel : simpl never.
#[local] Arguments FileModelRepository.saveModel : simpl never.

Lemma saveModel_written (model : Model) (st : FileModelRepository.state) :
  FileModelRepository.writeFault st = None ->
  FileModelRepository.saveModel model st
  = (Return tt,
     {| FileModelRepository.registryFile :=
          Some (<[name (info model) := toJSON model]>
                  (FileModelRepository.loadRegistry st));
        FileModelRepository.writeFault := None;
        FileModelRepository.knownModels := FileModelRepository.knownModels st |}).
Proof.
  intros Hw. unfold FileModelRepository.saveModel, FileModelRepository.saveRegistry.
  rewrite Hw. reflexivity.
Qed.

Lemma getModel_stored (modelName : string) (now : Date)
    (st : FileModelRepository.state) (modelData : ModelData) :
  FileModelRepository.loadRegistry st !! modelName = Some modelData ->
  wellFormed (d_info modelData) ->
  FileModelRepository.getModel modelName now st
  = (Return (Some (FileModelRepository.restoreStatus now modelData
                     (newModel (d_info modelData)))), st).
Proof.
  intros Hdoc Hwf. unfold FileModelRepository.getModel. rewrite Hdoc.
  rewrite (build_from_descriptor _ Hwf). reflexivity.
Qed.

(** X26: a failed download is persisted.  When [setupModel] finds a
    NotDownloaded record with a well-formed descriptor, the document can be
    written and the Acquirer answers false, the call answers the failure
    "Download failed", the Activator and the active model are untouched, and
    every later [getModel] of the record's name returns it in state Error
    with the message "Download failed". *)
Theorem setupModel_download_failure_persisted
    (s : ModelService FileModelRepository.state D L)
    (modelName : string) (onProgress : bool) (now : Date)
    (model : Model) (repository' : FileModelRepository.state)
    (calls : list Q) (downloader' : D) :
  getModel modelName now (repository s) = (Return (Some model), repository') ->
  FileModelRepository.writeFault repository' = None ->
  status model = NOT_DOWNLOADED ->
  wellFormed (info model) ->
  download (info model) (downloader s) = (calls, Return false, downloader') ->
  fst (setupModel modelName onProgress now s) = Return (failed "Download failed")
  /\ currentModel (snd (setupModel modelName onProgress now s)) = currentModel s
  /\ loader (snd (setupModel modelName onProgress now s)) = loader s
  /\ (forall now',
        getModel (name (info model)) now'
          (repository (snd (setupModel modelName onProgress now s)))
        = (Return (Some (markError "Download failed" (newModel (info model)))),
           repository (snd (setupModel modelName onProgress now s)))).
Proof.
  intros Hget Hw Hst Hwf Hdl.
  destruct model as [i st e t]. unfold status, info in *. cbn in Hst, Hwf, Hdl. subst st.
  cbn in Hget. unfold_service.
  destruct onProgress; cbn; rewrite Hget; cbn;
    rewrite (saveModel_written _ _ Hw); cbn; rewrite Hdl; cbn;
    rewrite saveModel_written by reflexivity; cbn.
  all: repeat split.
  all: intros now'; erewrite getModel_stored; cycle 1;
       [cbn; apply lookup_insert_eq | exact Hwf | reflexivity].
Qed.

(** X27: a failed load is persisted.  When [setupModel] finds a Downloaded
    record with a well-formed descriptor, the document can be written and
    the Activator's [loadModel] answers false, the call answers the failure
    "Loading failed", the active model is untouched, and every later
    [getModel] of the record's name returns it in state Error with the
    message "Loading failed": that the artifacts were downloaded is no
    longer recorded. *)
Theorem setupModel_load_failure_persisted
    (s : ModelService FileModelRepository.state D L)
    (modelName : string) (onProgress : bool) (now : Date)
    (model : Model) (repository' : FileModelRepository.state) (loader' : L) :
  getModel modelName now (repository s) = (Return (Some model), repository') ->
  FileModelRepository.writeFault repository' = None ->
  status model = DOWNLOADED ->
  wellFormed (info model) ->
  loadModel (markLoading model) (loader s) = (Return false, loader') ->
  fst (setupModel modelName onProgress now s) = Return (failed "Loading failed")
  /\ currentModel (snd (setupModel modelName onProgress now s)) = currentModel s
  /\ (forall now',
        getModel (name (info model)) now'
          (repository (snd (setupModel modelName onProgress now s)))
        = (Return (Some (markError "Loading failed" (newModel (info model)))),
           repository (snd (setupModel modelName onProgress now s)))).
Proof.
  intros Hget Hw Hst Hwf Hld.
  destruct model as [i st e t]. unfold status, info in *. cbn in Hst, Hwf. subst st.
  cbn in Hget. unfold_service.
  destruct onProgress; cbn; rewrite Hget; cbn;
    rewrite (saveModel_written _ _ Hw); cbn; rewrite Hld; cbn;
    rewrite saveModel_written by reflexivity; cbn.
  all: repeat split.
  all: intros now'; erewrite getModel_stored; cycle 1;
       [cbn; apply lookup_insert_eq | exact Hwf | reflexivity].
Qed.

End ServiceWithFileRepository.

(** The deployment with the network down. *)
Lemma setupModel_download_failure_persisted_witness :
  fst (setupModel "gpt2-small" true 7%Z Deployment.offline)
  = Return (failed "Download failed").
Proof.
  apply (setupModel_download_failure_persisted Deployment.offline "gpt2-small" true 7%Z
           (newModel Deployment.gpt2small)
           (snd (getModel "gpt2-small" 7%Z (repository Deployment.offline)))
           [] (snd (download Deployment.gpt2small (downloader Deployment.offline)))).
  - vm_compute. reflexivity.
  - reflexivity.
  - reflexivity.
  - repeat split; discriminate.
  - vm_compute. reflexivity.
Defined.

(** The deployment with a loader that cannot load, on a record already
    downloaded. *)
Lemma setupModel_load_failure_persisted_witness :
  fst (setupModel "gpt2-small" true 9%Z Deployment.downloadedOnly)
  = Return (failed "Loading failed").
Proof.
  apply (setupModel_load_failure_persisted Deployment.downloadedOnly "gpt2-small" true 9%Z
           (markDownloaded (newModel Deployment.gpt2small))
           (repository Deployment.downloadedOnly)
           (loader Deployment.downloadedOnly)).
  - vm_compute. reflexivity.
  - reflexivity.
  - reflexivity.
  - repeat split; discriminate.
  - vm_compute. reflexivity.
Defined.

(** ** The HTTP routes *)

Section RouteFacts.
Context {R D L : Type}.
Context `{!ModelRepository R, !ModelDownloader D, !ModelLoader L}.

Lemma setupModel_returns
    (s : ModelService R D L) (modelName : string) (onProgress : bool) (now : Date) :
  exists result, fst (setupModel modelName onProgress now s) = Return result.
Proof. unfold_service. split_run; cbn; eexists; reflexivity. Qed.

Lemma generateText_returns
    (s : ModelService R D L) (request : GenerationRequest) (clock : GenClock) :
  exists result, fst (generateText request clock s) = Return result.
Proof. unfold_service. split_run; cbn; eexists; reflexivity. Qed.

(** X28: [POST /api/v1/models/setup].  Without a model name, or with the
    empty one, the handler answers 400 and leaves the service alone.
    Otherwise it never throws, and it answers 200 with the result when
    [setupModel] succeeds and 500 with the result's error when it fails;
    the service is left as [setupModel] left it. *)
Theorem postSetup_codes (s : ModelService R D L) (modelName : option string) (now : Date) :
  (truthy modelName = false ->
   APIServer.postSetup modelName now s
   = (Return {| APIServer.code := 400;
                APIServer.body := APIServer.ErrorBody (Some "modelName is required") |},
      s))
  /\ (forall n,
        modelName = Some n -> n <> "" ->
        exists result,
          fst (setupModel n false now s) = Return result
          /\ APIServer.postSetup modelName now s
             = (Return (if SetupModelResult.success result
                        then {| APIServer.code := 200;
                                APIServer.body := APIServer.DataBody result |}
                        else {| APIServer.code := 500;
                                APIServer.body :=
                                  APIServer.ErrorBody (SetupModelResult.error result) |}),
                snd (setupModel n false now s))).
Proof.
  unfold APIServer.postSetup. split.
  - intros ->. reflexivity.
  - intros n -> Hne. rewrite (truthy_default n Hne).
    change (default "" (Some n)) with n. cbn [negb].
    destruct (setupModel_returns s n false now) as [result Hres].
    exists result. split; [exact Hres |].
    destruct (setupModel n false now s) as [o s']. cbn in Hres. subst o. cbn.
    destruct (SetupModelResult.success result); reflexivity.
Qed.

(** X29: [POST /api/v1/generate].  Without a prompt, or with the empty one,
    the handler answers 400 and leaves the service alone.  Otherwise it
    never throws, and it answers 200 with the response when [generateText]
    succeeds and 500 with its error when it fails; with no active model that
    is 500 with "No model loaded". *)
Theorem postGenerate_codes (s : ModelService R D L)
    (prompt_ : option string) (maxTokens_ temperature_ topP_ : option Q)
    (clock : GenClock) :
  (truthy prompt_ = false ->
   APIServer.postGenerate prompt_ maxTokens_ temperature_ topP_ clock s
   = (Return {| APIServer.code := 400;
                APIServer.body := APIServer.ErrorBody (Some "prompt is required") |},
      s))
  /\ (forall p,
        prompt_ = Some p -> p <> "" ->
        let request :=
          {| prompt := p; maxTokens := maxTokens_; temperature := temperature_;
             topP := topP_; topK := None; repetitionPenalty := None;
             doSample := None |} in
        (exists result,
            fst (generateText request clock s) = Return result
            /\ APIServer.postGenerate prompt_ maxTokens_ temperature_ topP_ clock s
               = (Return (if GenerationResult.success result
                          then {| APIServer.code := 200;
                                  APIServer.body :=
                                    APIServer.DataBody (GenerationResult.response result) |}
                          else {| APIServer.code := 500;
                                  APIServer.body :=
                                    APIServer.ErrorBody (GenerationResult.error result) |}),
                  snd (generateText request clock s)))
        /\ (currentModel s = None ->
            APIServer.postGenerate prompt_ maxTokens_ temperature_ topP_ clock s
            = (Return {| APIServer.code := 500;
                         APIServer.body :=
                           APIServer.ErrorBody (Some "No model loaded") |}, s))).
Proof.
  unfold APIServer.postGenerate. split.
  - intros ->. reflexivity.
  - intros p -> Hne. rewrite (truthy_default p Hne).
    change (default "" (Some p)) with p. cbn [negb].
    set (request := {| prompt := p |}). split.
    + destruct (generateText_returns s request clock) as [result Hres].
      exists result. split; [exact Hres |].
      destruct (generateText request clock s) as [o s']. cbn in Hres. subst o. cbn.
      destruct (GenerationResult.success result); reflexivity.
    + intros Hnone. unfold generateText. rewrite Hnone. reflexivity.
Qed.

End RouteFacts.

(** ** The catalogue search route *)

Section RegistrySearchRoute.
Import ModelRegistry.

Lemma filterEntries_returned keep l kept :
  filterEntries keep l = Return kept ->
  kept = List.filter
           (fun e => match keep e with Return true => true | _ => false end) l.
Proof.
  revert kept. induction l as [|e l IH]; simpl; intros kept H.
  - injection H as <-. reflexivity.
  - destruct (keep e) as [b |]; [| discriminate].
    destruct (filterEntries keep l) as [kept' |]; [| discriminate].
    injection H as <-. rewrite (IH kept' eq_refl). destruct b; reflexivity.
Qed.

(** X30: [GET /api/v1/registry/search].  A non-empty [q] decides the
    answer alone, whatever [tag] is; without one (absent or empty) the
    handler cannot throw; and whatever it returns is in popularity order and
    made of catalogue entries. *)
Theorem registrySearch_answers (q tag : option string)
    (models : list (string * ModelRegistryEntry)) :
  (forall tag', truthy q = true ->
     APIServer.registrySearch q tag models = APIServer.registrySearch q tag' models)
  /\ (truthy q = false ->
      exists results, APIServer.registrySearch q tag models = Return results)
  /\ (forall results,
        APIServer.registrySearch q tag models = Return results ->
        StronglySorted noLessPopular results
        /\ forall e, In e results -> In e (map snd models)).
Proof.
  unfold APIServer.registrySearch.
  pose proof (proj1 (proj2 (sortByPopularity_spec (map snd models)))) as Hs.
  fold (getAllModels models) in Hs.
  split; [intros tag' ->; reflexivity |].
  split.
  - intros ->. destruct (truthy tag); eexists; reflexivity.
  - intros results Hres.
    assert (exists f, results = List.filter f (getAllModels models)) as [f ->].
    { destruct (truthy q).
      - unfold searchModels in Hres. apply filterEntries_returned in Hres.
        eexists. exact Hres.
      - destruct (truthy tag); injection Hres as <-; eexists; reflexivity. }
    split; [apply filter_sorted, Hs |].
    intros e He. apply List.filter_In in He as [He _].
    apply In_getAllModels, He.
Qed.

End RegistrySearchRoute.
